(** * nanobot-go: the dispatcher core, embedded and checked against its
    specification.

    The development follows the packages of the repository:
    [session] (the bounded turn log and its manager), [config] (provider
    routing), [tools] (the filesystem tools, the shell tool, parameter
    validation and the registry), [providers] (the streaming tool-call
    reconstructor), [bus] (the message records) and [agent] (the context
    builder and the per-message reasoning loop).  The first part embeds the
    code, one definition per function, under the name the function has in
    the sources; the second part states and proves the properties.

    Conventions.
    - Go [string] is [string], a byte string; the functions of [strings],
      [unicode] and [path/filepath] are written out for ASCII text and Unix
      paths.
    - Go [error] is the text of its message; [option error] is an error
      that may be [nil], and a pair [(string, error)] is kept a pair.
    - Go [int] is [Z]; a [float64] is the rational it denotes.
    - A [map[K]V] is a [gmap K V] where the code looks keys up, and the list
      of its entries where the code ranges over it.
    - [*Session] is a location in the heap of the session manager.
    - What the operating system, the network and the standard library do
      (files, child processes, regular expressions, JSON decoding, [fmt]
      verbs, the clock) is a parameter, the class [Runtime]; the world they
      act on is threaded through the code as a state.
    - Log lines and the echo of streamed text on the terminal are left out.
    - The agent state carries the record of the calls [ProcessMessage] makes
      on the provider, the registry and the session manager, in order. *)

From stdpp Require Import gmap strings list.
From Stdlib Require Import ZArith Lia Ascii DecimalString.
From Stdlib Require QArith.

Local Open Scope Z_scope.

(** ** Go's [error] values *)

Abbreviation error := string.

(** ** package session *)

Module Session.

(** [type Message struct { Role, Content string; Timestamp time.Time }] *)
Record Message := mkMessage {
  Role : string;
  Content : string;
  Timestamp : Z
}.

(** [type Session struct { Key string; Messages []Message }] *)
Record Session := mkSession {
  Key : string;
  Messages : list Message
}.

(** The window bound written as the literal [50] in [AddMessage]. *)
Definition maxMessages : nat := 50.

(** [func (s *Session) AddMessage(role, content string)]; [now] is the value
    [time.Now()] returns at the call. *)
Definition AddMessage (role content : string) (now : Z) (s : Session) : Session :=
  let msgs := Messages s ++ [mkMessage role content now] in
  mkSession (Key s)
    (if decide (maxMessages < length msgs)%nat
     then drop (length msgs - maxMessages) msgs
     else msgs).

(** [func (s *Session) GetHistory() []Message] *)
Definition GetHistory (s : Session) : list Message := Messages s.

(** [func (s *Session) Clear()] *)
Definition Clear (s : Session) : Session := mkSession (Key s) [].

(** The record [GetOrCreate] builds when neither the cache nor the disk has
    the key: [&Session{Key: key, Messages: make([]Message, 0)}]. *)
Definition newSession (key : string) : Session := mkSession key [].

(** [n] successive calls of [AddMessage], one per element of [turns]. *)
Definition appendAll (turns : list Message) (s : Session) : Session :=
  foldl (fun acc m => AddMessage (Role m) (Content m) (Timestamp m) acc) s turns.

(** The last [n] elements of a list, in order. *)
Definition lastn {A} (n : nat) (l : list A) : list A := drop (length l - n) l.

End Session.

(** ** The parts of Go's [strings] package the sources call *)

Module GoStrings.

(** [s == EmptyString], as a boolean. *)
Definition isEmpty (s : string) : bool :=
  match s with EmptyString => true | String _ _ => false end.

(** [strings.HasPrefix(s, prefix)] *)
Fixpoint HasPrefix (s prefix : string) : bool :=
  match prefix, s with
  | EmptyString, _ => true
  | String _ _, EmptyString => false
  | String a p', String b s' => if Ascii.eqb a b then HasPrefix s' p' else false
  end.

(** [strings.Contains(s, substr)] *)
Fixpoint Contains (s substr : string) : bool :=
  HasPrefix s substr ||
  match s with
  | EmptyString => false
  | String _ s' => Contains s' substr
  end.

(** [strings.ToLower] on one byte: the ASCII letters [A]..[Z] move to
    [a]..[z], every other byte is kept. *)
Definition lowerByte (a : ascii) : ascii :=
  let n := nat_of_ascii a in
  if (Nat.leb 65 n && Nat.leb n 90)%bool then ascii_of_nat (n + 32) else a.

(** [strings.ToLower(s)] for ASCII text (model identifiers are ASCII). *)
Fixpoint ToLower (s : string) : string :=
  match s with
  | EmptyString => EmptyString
  | String a s' => String (lowerByte a) (ToLower s')
  end.

(** The line feed, Go's ['\n']. *)
Definition LF : ascii := ascii_of_nat 10.

(** [strings.Split(s, sep)] for a one-byte separator [sep]: the pieces
    between the separators, at least one piece (the empty one for [s] empty). *)
Fixpoint Split (s : string) (sep : ascii) : list string :=
  match s with
  | EmptyString => [EmptyString]
  | String a s' =>
      if Ascii.eqb a sep then EmptyString :: Split s' sep
      else match Split s' sep with
           | piece :: rest => String a piece :: rest
           | [] => [String a EmptyString]
           end
  end.

(** [strings.Join(elems, sep)] *)
Fixpoint Join (elems : list string) (sep : string) : string :=
  match elems with
  | [] => EmptyString
  | [e] => e
  | e :: rest => e +:+ sep +:+ Join rest sep
  end.

(** [unicode.IsSpace] on a byte below 128. *)
Definition IsSpace (a : ascii) : bool :=
  let n := nat_of_ascii a in
  (Nat.leb 9 n && Nat.leb n 13) || Nat.eqb n 32.

(** [strings.TrimLeftFunc(s, unicode.IsSpace)] *)
Fixpoint trimLeftSpace (s : string) : string :=
  match s with
  | String a rest => if IsSpace a then trimLeftSpace rest else s
  | EmptyString => EmptyString
  end.

(** [strings.TrimRightFunc(s, unicode.IsSpace)] *)
Fixpoint trimRightSpace (s : string) : string :=
  match s with
  | String a rest =>
      match trimRightSpace rest with
      | EmptyString => if IsSpace a then EmptyString else String a EmptyString
      | rest' => String a rest'
      end
  | EmptyString => EmptyString
  end.

(** [strings.TrimSpace(s)] for ASCII white space. *)
Definition TrimSpace (s : string) : string := trimRightSpace (trimLeftSpace s).

(** [strings.TrimPrefix(s, prefix)] *)
Definition TrimPrefix (s prefix : string) : string :=
  if HasPrefix s prefix
  then String.substring (String.length prefix) (String.length s - String.length prefix) s
  else s.

(** [len(s)], the number of bytes. *)
Definition len (s : string) : Z := Z.of_nat (String.length s).

(** [s[:n]] for [0 <= n <= len(s)]. *)
Definition sliceTo (s : string) (n : Z) : string := String.substring 0 (Z.to_nat n) s.

End GoStrings.

(** ** Go values of type [interface{}] *)

Module GoValue.

(** A [float64] that holds a finite number, as the rational it denotes
    (JSON numbers decode to such values). *)
Abbreviation float64 := QArith_base.Q.

(** [float64(n)] for an integer [n]. *)
Definition floatOfInt (n : Z) : float64 := QArith_base.Qmake n 1.

(** [int(v)] and [int64(v)]: truncation toward zero. *)
Definition intOfFloat (v : float64) : Z :=
  Z.quot (QArith_base.Qnum v) (Z.pos (QArith_base.Qden v)).

(** [a < b] and [a == b] on [float64]. *)
Definition floatLt (a b : float64) : bool :=
  QArith_base.Qnum a * Z.pos (QArith_base.Qden b)
  <? QArith_base.Qnum b * Z.pos (QArith_base.Qden a).

Definition floatEq (a b : float64) : bool :=
  QArith_base.Qnum a * Z.pos (QArith_base.Qden b)
  =? QArith_base.Qnum b * Z.pos (QArith_base.Qden a).

(** The dynamic values that occur in tool arguments and in parameter
    schemas: [nil], [bool], [int] (Go literals such as ["minimum": 1]),
    [float64] (every JSON number), [string], [[]string] (the [required]
    lists of the built-in schemas), [[]interface{}] and
    [map[string]interface{}].  A map is kept as the list of its entries, in
    the order a [range] visits them; its keys are distinct. *)
#[local] Unset Elimination Schemes.
Inductive value :=
| VNil
| VBool (b : bool)
| VInt (n : Z)
| VFloat (f : float64)
| VString (s : string)
| VStrings (l : list string)
| VArray (l : list value)
| VObject (m : list (string * value)).
#[local] Set Elimination Schemes.

(** [map[string]interface{}] *)
Abbreviation object := (list (string * value)).

(** [m[key]] with its presence flag. *)
Fixpoint mapGet (m : object) (key : string) : option value :=
  match m with
  | [] => None
  | (k, v) :: rest => if String.eqb k key then Some v else mapGet rest key
  end.

(** [v, _ := m[key].(string)]: the zero value unless a string is stored. *)
Definition getString (m : object) (key : string) : string :=
  match mapGet m key with
  | Some (VString s) => s
  | _ => EmptyString
  end.

(** The pattern
    [if v, ok := m[key].(float64); ok {..} else if v, ok := m[key].(int); ok {..}]
    with default [0]. *)
Definition getInt (m : object) (key : string) : Z :=
  match mapGet m key with
  | Some (VFloat f) => intOfFloat f
  | Some (VInt n) => n
  | _ => 0
  end.

(** [reflect.DeepEqual] on these values: same dynamic type and equal
    contents; maps compare entry by entry whatever the order. *)
Fixpoint DeepEqual (a b : value) {struct a} : bool :=
  match a, b with
  | VNil, VNil => true
  | VBool x, VBool y => Bool.eqb x y
  | VInt x, VInt y => x =? y
  | VFloat x, VFloat y => floatEq x y
  | VString x, VString y => String.eqb x y
  | VStrings x, VStrings y => bool_decide (x = y)
  | VArray x, VArray y =>
      (fix go (x y : list value) {struct x} : bool :=
         match x, y with
         | [], [] => true
         | u :: x', v :: y' => DeepEqual u v && go x' y'
         | _, _ => false
         end) x y
  | VObject x, VObject y =>
      Nat.eqb (length x) (length y) &&
      (fix go (x : object) {struct x} : bool :=
         match x with
         | [] => true
         | (k, u) :: x' =>
             match mapGet y k with
             | Some v => DeepEqual u v && go x'
             | None => false
             end
         end) x
  | _, _ => false
  end.

End GoValue.

(** ** The process environment the tools run in *)

Module Runtime.
Import GoStrings GoValue.

(** A Go [(string, error)] result. *)
Abbreviation result := (string * option error)%type.

(** What the standard library and the operating system contribute, as far as
    the sources use them.  [W] is the state of the world outside the
    program (files, child processes, the network). *)
Class Runtime (W : Type) := {
  (** [os.Getwd()], which [filepath.Abs] consults *)
  Getwd : string;
  (** [os.UserHomeDir()] *)
  UserHomeDir : string + error;
  (** [filepath.EvalSymlinks] *)
  EvalSymlinks : W -> string -> string + error;
  (** [os.ReadFile] *)
  os_ReadFile : W -> string -> string + error;
  (** [exec.CommandContext(ctx, "sh", "-c", command)] run in [dir] under a
      deadline of [timeout] seconds, through [CombinedOutput]: the combined
      output, the error, and whether the deadline was exceeded *)
  sh_CombinedOutput : string -> string -> Z -> W -> (string * option error * bool) * W;
  (** [regexp.MatchString(pattern, s)] *)
  regexp_MatchString : string -> string -> bool + error;
  (** [json.Unmarshal] into a [map[string]interface{}] *)
  json_Unmarshal : string -> object + error;
  (** the verb [%v] of [fmt] on a [float64], a [[]interface{}] and a
      [time.Duration] given in seconds *)
  fmt_float : float64 -> string;
  fmt_values : list value -> string;
  fmt_duration : Z -> string;
  (** [time.Now()]; reading the clock lets the world move on *)
  time_Now : W -> Z * W
}.

(** The verb [%d] of [fmt] on an [int]. *)
Definition fmt_d (n : Z) : string := NilZero.string_of_int (Z.to_int n).

End Runtime.

(** ** The parts of [path/filepath] the tools call (Unix) *)

Module Filepath.
Import GoStrings.

Definition Separator : ascii := ascii_of_nat 47.

(** [filepath.IsAbs] *)
Definition IsAbs (path : string) : bool :=
  match path with
  | String a _ => Ascii.eqb a Separator
  | EmptyString => false
  end.

(** The elements of a path that [Clean] keeps apart: the pieces between
    separators, without the empty ones and the [.] ones. *)
Definition elements (path : string) : list string :=
  List.filter (fun e => negb (isEmpty e) && negb (String.eqb e "."))
    (Split path Separator).

(** The lexical pass of [Clean] over the elements, [out] being the elements
    kept so far, last one first: a [..] removes the element before it,
    disappears at the root of a rooted path and stays in front of a
    relative one. *)
Fixpoint cleanElements (rooted : bool) (elems out : list string) : list string :=
  match elems with
  | [] => rev out
  | e :: rest =>
      if String.eqb e ".." then
        match out with
        | top :: out' =>
            if String.eqb top ".." then cleanElements rooted rest (e :: out)
            else cleanElements rooted rest out'
        | [] =>
            if rooted then cleanElements rooted rest []
            else cleanElements rooted rest [e]
        end
      else cleanElements rooted rest (e :: out)
  end.

(** [filepath.Clean] *)
Definition Clean (path : string) : string :=
  let rooted := IsAbs path in
  let body := Join (cleanElements rooted (elements path) []) "/" in
  if rooted then "/" +:+ body
  else if isEmpty body then "." else body.

(** [filepath.Join(a, b)] for two elements. *)
Definition Join2 (a b : string) : string :=
  if isEmpty a then (if isEmpty b then EmptyString else Clean b)
  else if isEmpty b then Clean a
  else Clean (a +:+ "/" +:+ b).

(** [filepath.Abs(path)], [wd] being the working directory. *)
Definition Abs (wd path : string) : string :=
  if IsAbs path then Clean path else Join2 wd path.

(** [filepath.Rel(base, target)] decides containment in [isWithin]; on two
    cleaned absolute paths its answer is [.] when they are equal and starts
    with [..] exactly when the elements of [base] do not begin those of
    [target].  This is the test on elements. *)
Fixpoint elementsPrefix (base target : list string) : bool :=
  match base, target with
  | [], _ => true
  | _ :: _, [] => false
  | b :: base', t :: target' => String.eqb b t && elementsPrefix base' target'
  end.

End Filepath.

(** ** package tools: the filesystem tools (filesystem.go) *)

Module Tools.
Import GoStrings GoValue Runtime Filepath.

(** A line feed as a string. *)
Definition nl : string := String LF EmptyString.

Section WithRuntime.
Context {W : Type} `{RT : Runtime W}.

(** [func isPathAllowed(path string) error]; [allowedDir] is the package
    variable of that name, set by [SetAllowedDir]. *)
Definition isPathAllowed (allowedDir path : string) : option error :=
  if isEmpty allowedDir then None
  else
    let absPath := Abs Getwd path in
    let absAllowed := Abs Getwd allowedDir in
    if negb (HasPrefix absPath absAllowed) then
      Some ("path " +:+ absPath +:+ " is outside of allowed directory " +:+ absAllowed)
    else None.

(** [path[2:]] *)
Definition dropTwo (path : string) : string :=
  String.substring 2 (String.length path - 2) path.

(** [func resolvePath(path string) (string, error)] *)
Definition resolvePath (allowedDir path : string) : result :=
  let expanded :=
    if HasPrefix path "~/" then
      match UserHomeDir with
      | inr err => inr err
      | inl homeDir => inl (Join2 homeDir (dropTwo path))
      end
    else inl path in
  match expanded with
  | inr err => (EmptyString, Some err)
  | inl path =>
      let absPath := Abs Getwd path in
      match isPathAllowed allowedDir absPath with
      | Some err => (EmptyString, Some err)
      | None => (absPath, None)
      end
  end.

(** [func (t *ReadFileTool) Execute(ctx, params) (string, error)] *)
Definition ReadFileTool_Execute (allowedDir : string) (params : object) (w : W) : result :=
  let path := getString params "path" in
  if isEmpty path then (EmptyString, Some "path is required")
  else
    match resolvePath allowedDir path with
    | (_, Some err) => (EmptyString, Some err)
    | (resolvedPath, None) =>
        match os_ReadFile w resolvedPath with
        | inr err => (EmptyString, Some ("failed to read file: " +:+ err))
        | inl content =>
            let offset := getInt params "offset" in
            let limit := getInt params "limit" in
            let lines := Split content LF in
            if (0 <? offset) && (Z.of_nat (length lines) <=? offset) then
              (EmptyString, Some "offset exceeds file length")
            else
              let lines := if 0 <? offset then drop (Z.to_nat offset) lines else lines in
              let lines :=
                if (0 <? limit) && (limit <? Z.of_nat (length lines))
                then take (Z.to_nat limit) lines else lines in
              (Join lines nl, None)
        end
    end.

(** ** package tools: the shell tool (shell.go) *)

(** [var dangerousPatterns] *)
Definition dangerousPatterns : list string :=
  [ "rm\s+-rf\s+/";
    "rm\s+-rf\s+/\s";
    "mkfs\.";
    "dd\s+if=.*of=/dev/";
    ":(){ :|:& };:";
    ">\s*/dev/sda";
    ">\s*/dev/hda";
    "chmod\s+-R\s+000\s+/" ].

(** [func isDangerousCommand(command string) error] *)
Definition isDangerousCommand (command : string) : option error :=
  let lowerCmd := ToLower command in
  (fix scan (patterns : list string) : option error :=
     match patterns with
     | [] => None
     | pattern :: rest =>
         match regexp_MatchString pattern lowerCmd with
         | inr _ => scan rest
         | inl true =>
             Some ("dangerous command detected: pattern '" +:+ pattern +:+ "' matched")
         | inl false => scan rest
         end
     end) dangerousPatterns.

(** The state of the scanner of [splitShellWords]. *)
Record splitState := mkSplitState {
  tokens : list string;
  buf : string;
  inSingle : bool;
  inDouble : bool;
  escape : bool
}.

(** The closure [flush] of [splitShellWords]. *)
Definition flush (st : splitState) : splitState :=
  if isEmpty (buf st) then st
  else mkSplitState (tokens st ++ [buf st]) EmptyString
         (inSingle st) (inDouble st) (escape st).

Definition writeRune (r : ascii) (st : splitState) : splitState :=
  mkSplitState (tokens st) (buf st +:+ String r EmptyString)
    (inSingle st) (inDouble st) (escape st).

(** One turn of the loop of [splitShellWords]. *)
Definition splitStep (st : splitState) (r : ascii) : splitState :=
  if escape st then
    mkSplitState (tokens st) (buf st +:+ String r EmptyString)
      (inSingle st) (inDouble st) false
  else if Ascii.eqb r (ascii_of_nat 92) && negb (inSingle st) then
    mkSplitState (tokens st) (buf st) (inSingle st) (inDouble st) true
  else if Ascii.eqb r (ascii_of_nat 39) && negb (inDouble st) then
    mkSplitState (tokens st) (buf st) (negb (inSingle st)) (inDouble st) (escape st)
  else if Ascii.eqb r (ascii_of_nat 34) && negb (inSingle st) then
    mkSplitState (tokens st) (buf st) (inSingle st) (negb (inDouble st)) (escape st)
  else if IsSpace r && negb (inSingle st) && negb (inDouble st) then flush st
  else writeRune r st.

(** [func splitShellWords(input string) []string] *)
Definition splitShellWords (input : string) : list string :=
  tokens (flush (foldl splitStep
                   (mkSplitState [] EmptyString false false false)
                   (String.list_ascii_of_string input))).

(** [func isShellSeparator(token string) bool] *)
Definition isShellSeparator (token : string) : bool :=
  String.eqb token "|" || String.eqb token "||" || String.eqb token "&"
  || String.eqb token "&&" || String.eqb token ";".

(** [func looksLikePath(token string) bool] *)
Definition looksLikePath (token : string) : bool :=
  if isEmpty token then false
  else if HasPrefix token "~" then true
  else if Contains token "$HOME" || Contains token "${HOME}"
          || Contains token "$USERPROFILE" then true
  else if HasPrefix token "." || Contains token "/" || Contains token "\" then true
  else false.

(** [func cleanAbsPath(path string) (string, error)]; the error branch needs
    [os.Getwd] to fail, which the runtime excludes. *)
Definition cleanAbsPath (w : W) (path : string) : string :=
  let abs := Abs Getwd path in
  match EvalSymlinks w abs with
  | inl resolved => resolved
  | inr _ => abs
  end.

(** [func isWithin(base, target string) bool], with [filepath.Rel] read on
    the elements of the two paths. *)
Definition isWithin (base target : string) : bool :=
  if Bool.eqb (IsAbs base) (IsAbs target)
  then elementsPrefix (elements (Clean base)) (elements (Clean target))
  else false.

(** [func ensurePathWithinWorkspace(pathToken, workspace string) error] *)
Definition ensurePathWithinWorkspace (w : W) (pathToken workspace : string) : option error :=
  if HasPrefix pathToken "~" || Contains pathToken "$HOME"
     || Contains pathToken "${HOME}" || Contains pathToken "$USERPROFILE"
  then Some ("path '" +:+ pathToken +:+ "' is not allowed in restricted mode")
  else
    let ws := cleanAbsPath w workspace in
    let target :=
      if IsAbs pathToken then cleanAbsPath w pathToken
      else cleanAbsPath w (Join2 ws pathToken) in
    if negb (isWithin ws target)
    then Some ("path '" +:+ pathToken +:+ "' is outside workspace")
    else None.

(** [strings.TrimLeft(token, "><")] *)
Fixpoint trimRedirect (token : string) : string :=
  match token with
  | String a rest =>
      if Ascii.eqb a (ascii_of_nat 62) || Ascii.eqb a (ascii_of_nat 60)
      then trimRedirect rest else token
  | EmptyString => EmptyString
  end.

(** [strings.SplitN(s, "=", 2)[1]] for an [s] that contains [=]. *)
Fixpoint afterEquals (s : string) : string :=
  match s with
  | String a rest => if Ascii.eqb a (ascii_of_nat 61) then rest else afterEquals rest
  | EmptyString => EmptyString
  end.

(** The body of the loop of [validateCommandInWorkspace] for one token:
    [None] to go on to the next token, [Some err] to return. *)
Definition validateToken (w : W) (workspace token : string) : option error :=
  if isEmpty token then None
  else if isShellSeparator token then None
  else if Contains token "$(" || Contains token "`" then
    Some "command contains unsupported shell expansion in restricted mode"
  else
    let trimmed := trimRedirect token in
    if isEmpty trimmed then None
    else if Contains trimmed "=" && looksLikePath (afterEquals trimmed) then
      ensurePathWithinWorkspace w (afterEquals trimmed) workspace
    else if looksLikePath trimmed then ensurePathWithinWorkspace w trimmed workspace
    else None.

(** [func validateCommandInWorkspace(command, workspace string) error] *)
Definition validateCommandInWorkspace (w : W) (command workspace : string) : option error :=
  if isEmpty workspace then Some "workspace is required"
  else
    (fix each (toks : list string) : option error :=
       match toks with
       | [] => None
       | token :: rest =>
           match validateToken w workspace token with
           | Some err => Some err
           | None => each rest
           end
       end) (splitShellWords command).

(** [type ExecTool struct]; [Timeout] in seconds. *)
Record ExecTool := mkExecTool {
  WorkingDir : string;
  Timeout : Z;
  RestrictToWorkspace : bool
}.

(** [func NewExecTool(workingDir string, timeout int, restrictToWorkspace bool)] *)
Definition NewExecTool (workingDir : string) (timeout : Z) (restrict : bool) : ExecTool :=
  mkExecTool workingDir (if timeout <=? 0 then 60 else timeout) restrict.

(** [maxOutputSize := 10 * 1024] *)
Definition maxOutputSize : Z := 10 * 1024.

(** The marker appended to a truncated output. *)
Definition truncationMarker : string := nl +:+ "... (output truncated)".

(** The truncation step of [Execute]. *)
Definition truncateOutput (output : string) : string :=
  if maxOutputSize <? len output
  then sliceTo output maxOutputSize +:+ truncationMarker
  else output.

(** [func (t *ExecTool) Execute(ctx, params) (string, error)] *)
Definition ExecTool_Execute (t : ExecTool) (params : object) (w : W) : result * W :=
  let command := getString params "command" in
  if isEmpty command then ((EmptyString, Some "command is required"), w)
  else
    match isDangerousCommand command with
    | Some err => ((EmptyString, Some err), w)
    | None =>
        let workDir := WorkingDir t in
        let restricted :=
          if RestrictToWorkspace t && negb (isEmpty workDir) then
            validateCommandInWorkspace w command (cleanAbsPath w workDir)
          else if RestrictToWorkspace t && isEmpty workDir then
            Some "restrictToWorkspace enabled but working directory is empty"
          else None in
        match restricted with
        | Some err => ((EmptyString, Some err), w)
        | None =>
            let timeout :=
              match mapGet params "timeout" with
              | Some (VFloat v) =>
                  if 0 <? intOfFloat v then intOfFloat v else Timeout t
              | _ => Timeout t
              end in
            let '((output, err, deadlineExceeded), w') :=
              sh_CombinedOutput command workDir timeout w in
            let outputStr := truncateOutput output in
            match err with
            | Some e =>
                if deadlineExceeded then
                  (("Command timed out after " +:+ fmt_duration timeout +:+ nl
                    +:+ "Partial output:" +:+ nl +:+ outputStr, None), w')
                else
                  (("Command failed: " +:+ e +:+ nl +:+ "Output:" +:+ nl
                    +:+ outputStr, None), w')
            | None => ((outputStr, None), w')
            end
        end
    end.

(** ** package tools: parameter validation (base.go) *)

(** [func isInteger(v interface{}) bool] *)
Definition isInteger (v : value) : bool :=
  match v with
  | VInt _ => true
  | VFloat f => floatEq f (floatOfInt (intOfFloat f))
  | _ => false
  end.

(** [func isNumber(v interface{}) bool] *)
Definition isNumber (v : value) : bool :=
  match v with
  | VInt _ | VFloat _ => true
  | _ => false
  end.

(** [func toFloat64(v interface{}) float64] *)
Definition toFloat64 (v : value) : float64 :=
  match v with
  | VInt n => floatOfInt n
  | VFloat f => f
  | _ => floatOfInt 0
  end.

(** The two bound checks shared by the [integer] and [number] cases of
    [validateValue]. *)
Definition checkBounds (schema : object) (path : string) (num : float64) : option error :=
  match mapGet schema "minimum" with
  | Some (VFloat minimum) =>
      if floatLt num minimum
      then Some (path +:+ " must be >= " +:+ fmt_float minimum)
      else
        match mapGet schema "maximum" with
        | Some (VFloat maximum) =>
            if floatLt maximum num
            then Some (path +:+ " must be <= " +:+ fmt_float maximum) else None
        | _ => None
        end
  | _ =>
      match mapGet schema "maximum" with
      | Some (VFloat maximum) =>
          if floatLt maximum num
          then Some (path +:+ " must be <= " +:+ fmt_float maximum) else None
      | _ => None
      end
  end.

(** The length checks of the [string] case of [validateValue]. *)
Definition checkLength (schema : object) (path str : string) : option error :=
  let n := floatOfInt (len str) in
  match mapGet schema "minLength" with
  | Some (VFloat minLen) =>
      if floatLt n minLen
      then Some (path +:+ " must be at least " +:+ fmt_d (intOfFloat minLen) +:+ " chars")
      else
        match mapGet schema "maxLength" with
        | Some (VFloat maxLen) =>
            if floatLt maxLen n
            then Some (path +:+ " must be at most " +:+ fmt_d (intOfFloat maxLen) +:+ " chars")
            else None
        | _ => None
        end
  | _ =>
      match mapGet schema "maxLength" with
      | Some (VFloat maxLen) =>
          if floatLt maxLen n
          then Some (path +:+ " must be at most " +:+ fmt_d (intOfFloat maxLen) +:+ " chars")
          else None
      | _ => None
      end
  end.

(** The [enum] check that ends [validateValue]. *)
Definition checkEnum (schema : object) (path : string) (v : value) : option error :=
  match mapGet schema "enum" with
  | Some (VArray enum) =>
      if existsb (DeepEqual v) enum then None
      else Some (path +:+ " must be one of " +:+ fmt_values enum)
  | _ => None
  end.

(** The first missing name of a [required] list. *)
Fixpoint checkRequired (required : list string) (params : object) : option error :=
  match required with
  | [] => None
  | reqStr :: rest =>
      match mapGet params reqStr with
      | None => Some ("missing required parameter: " +:+ reqStr)
      | Some _ => checkRequired rest params
      end
  end.

(** The strings of a [[]interface{}], the other entries being skipped. *)
Definition stringsOf (l : list value) : list string :=
  omap (fun v => match v with VString s => Some s | _ => None end) l.

(** [func ValidateParams(schema, params map[string]interface{}) error], with
    the validation of one value as a parameter: [ValidateParams] and
    [validateValue] call each other. *)
Definition ValidateParamsWith
    (validate : value -> object -> string -> option error)
    (schema : option object) (params : object) : option error :=
  match schema with
  | None => None
  | Some schema =>
      let schemaType := getString schema "type" in
      if negb (String.eqb schemaType "object") then
        Some ("schema type must be 'object', got '" +:+ schemaType +:+ "'")
      else
        let properties :=
          match mapGet schema "properties" with
          | Some (VObject props) => props
          | _ => []
          end in
        let missing :=
          match mapGet schema "required" with
          | Some (VStrings required) => checkRequired required params
          | Some (VArray required) => checkRequired (stringsOf required) params
          | _ => None
          end in
        match missing with
        | Some err => Some err
        | None =>
            (fix each (entries : object) : option error :=
               match entries with
               | [] => None
               | (key, v) :: rest =>
                   match mapGet properties key with
                   | Some (VObject propMap) =>
                       match validate v propMap key with
                       | Some err => Some err
                       | None => each rest
                       end
                   | _ => each rest
                   end
               end) params
        end
  end.

(** [func validateValue(value interface{}, schema map[string]interface{}, path string) error] *)
Fixpoint validateValue (v : value) (schema : object) (path : string) {struct v}
  : option error :=
  let propType := getString schema "type" in
  let typed :=
    if String.eqb propType "string" then
      match v with
      | VString str => checkLength schema path str
      | _ => Some (path +:+ " should be string")
      end
    else if String.eqb propType "integer" then
      if isInteger v then checkBounds schema path (toFloat64 v)
      else Some (path +:+ " should be integer")
    else if String.eqb propType "number" then
      if isNumber v then checkBounds schema path (toFloat64 v)
      else Some (path +:+ " should be number")
    else if String.eqb propType "boolean" then
      match v with
      | VBool _ => None
      | _ => Some (path +:+ " should be boolean")
      end
    else if String.eqb propType "array" then
      match v with
      | VArray arr =>
          match mapGet schema "items" with
          | Some (VObject itemsSchema) =>
              (fix each (arr : list value) (i : Z) : option error :=
                 match arr with
                 | [] => None
                 | item :: rest =>
                     match validateValue item itemsSchema
                             (path +:+ "[" +:+ fmt_d i +:+ "]") with
                     | Some err => Some err
                     | None => each rest (i + 1)
                     end
                 end) arr 0
          | _ => None
          end
      | _ => Some (path +:+ " should be array")
      end
    else if String.eqb propType "object" then
      match v with
      | VObject obj =>
          match ValidateParamsWith validateValue (Some schema) obj with
          | Some err => Some (path +:+ "." +:+ err)
          | None => None
          end
      | _ => Some (path +:+ " should be object")
      end
    else None in
  match typed with
  | Some err => Some err
  | None => checkEnum schema path v
  end.

(** [func ValidateParams(schema, params map[string]interface{}) error] *)
Definition ValidateParams (schema : option object) (params : object) : option error :=
  ValidateParamsWith validateValue schema params.

(** ** package tools: the registry (registry.go) *)

(** [type Tool interface]: name, description, parameter schema (a map that
    may be [nil]) and executor.  [S] is the state an executor may read and
    change. *)
Record Tool (S : Type) := mkTool {
  Name : string;
  Description : string;
  Parameters : option object;
  Execute : object -> S -> result * S
}.
Arguments mkTool {S}.
Arguments Name {S}.
Arguments Description {S}.
Arguments Parameters {S}.
Arguments Execute {S}.

(** [func (r *Registry) Register(tool Tool) error], [None] being the [nil]
    tool. *)
Definition Register {S} (tool : option (Tool S)) (r : gmap string (Tool S))
  : option error * gmap string (Tool S) :=
  match tool with
  | None => (Some "tool cannot be nil", r)
  | Some tool =>
      if isEmpty (Name tool) then (Some "tool name cannot be empty", r)
      else (None, <[Name tool := tool]> r)
  end.

(** [func (r *Registry) Get(name string) (Tool, bool)] *)
Definition Get {S} (r : gmap string (Tool S)) (name : string) : option (Tool S) :=
  r !! name.

(** [func (r *Registry) Execute(ctx, name, params) (string, error)] *)
Definition Registry_Execute {S} (r : gmap string (Tool S)) (name : string)
    (params : object) (st : S) : result * S :=
  match Get r name with
  | None => ((EmptyString, Some ("tool not found: " +:+ name)), st)
  | Some tool =>
      match ValidateParams (Parameters tool) params with
      | Some err => (("Invalid parameters: " +:+ err, None), st)
      | None => Execute tool params st
      end
  end.

(** [func (t *BaseTool) ToOpenAISchema() map[string]interface{}] *)
Definition ToOpenAISchema {S} (t : Tool S) : object :=
  [ ("type", VString "function");
    ("function",
      VObject [ ("name", VString (Name t));
                ("description", VString (Description t));
                ("parameters",
                  match Parameters t with
                  | Some p => VObject p
                  | None => VNil
                  end) ]) ].

(** [func (r *Registry) GetDefinitions() []map[string]interface{}], in the
    order the registry is ranged over. *)
Definition GetDefinitions {S} (r : gmap string (Tool S)) : list object :=
  (fun entry => ToOpenAISchema (snd entry)) <$> map_to_list r.

(** ** The built-in tools as registry entries *)

(** The state the built-in executors work on: the package variable
    [allowedDir] and the world. *)
Record ProgState := mkProgState {
  allowedDir : string;
  world : W
}.


(** The schema literal of [NewReadFileTool]. *)
Definition readFileParameters : object :=
  [ ("type", VString "object");
    ("properties",
      VObject
        [ ("path",
            VObject [ ("type", VString "string");
                      ("description", VString "Path to the file to read") ]);
          ("limit",
            VObject [ ("type", VString "integer");
                      ("description", VString "Maximum number of lines to read (optional)");
                      ("minimum", VInt 1);
                      ("maximum", VInt 1000) ]);
          ("offset",
            VObject [ ("type", VString "integer");
                      ("description",
                        VString "Line offset to start reading from (0-indexed, optional)");
                      ("minimum", VInt 0) ]) ]);
    ("required", VStrings ["path"]) ].

(** [func NewReadFileTool() *ReadFileTool] *)
Definition NewReadFileTool : Tool ProgState :=
  mkTool "read_file"
    "Read the contents of a file. Use for viewing code, logs, or any text file."
    (Some readFileParameters)
    (fun params st => (ReadFileTool_Execute (allowedDir st) params (world st), st)).



End WithRuntime.

Arguments mkTool {S}.
Arguments Name {S}.
Arguments Description {S}.
Arguments Parameters {S}.
Arguments Execute {S}.

End Tools.

(** ** package providers: the streaming client (openai.go) *)

Module Providers.
Import GoStrings GoValue Runtime.

(** [type ToolCallFunction struct { Name, Arguments string }] *)
Record ToolCallFunction := mkToolCallFunction {
  Name : string;
  Arguments : string
}.

(** [type ToolCall struct { ID, Type string; Function ToolCallFunction }];
    [Type_] is the field [Type]. *)
Record ToolCall := mkToolCall {
  ID : string;
  Type_ : string;
  Function : ToolCallFunction
}.

(** [type Message struct] *)
Record Message := mkMessage {
  Role : string;
  Content : string;
  ToolCallID : string;
  ToolCalls : list ToolCall
}.

(** The calls a provider makes on a [StreamHandler], one constructor per
    method of the interface. *)
Inductive HandlerCall :=
| OnContent (token : string)
| OnToolCallStart (id name : string)
| OnToolCallDelta (id delta : string)
| OnToolCallEnd (id : string)
| OnComplete
| OnError (err : error).

(** [type LLMProvider interface]: a streaming request answers with the
    calls it made on the handler, in order, and the error it returned; it may
    change the world. *)
Record LLMProvider (W : Type) := mkLLMProvider {
  ChatStream : list Message -> list object -> string -> W
               -> (list HandlerCall * option error) * W;
  GetDefaultModel : string
}.
Arguments mkLLMProvider {W}.
Arguments ChatStream {W}.
Arguments GetDefaultModel {W}.

(** [type chatToolCallDelta struct]; [Function] is a
    [chatToolCallFunction], which has the fields of [ToolCallFunction]. *)
Record chatToolCallDelta := mkDelta {
  dIndex : Z;
  dID : string;
  dType : string;
  dFunction : ToolCallFunction
}.

(** One element of [chatStreamChunk.Choices]. *)
Record chatChoice := mkChoice {
  DeltaContent : string;
  DeltaToolCalls : list chatToolCallDelta;
  FinishReason : string
}.

(** [type chatStreamChunk struct] *)
Record chatStreamChunk := mkChunk {
  Choices : list chatChoice
}.

(** [type toolCallBuilder struct] *)
Record toolCallBuilder := mkBuilder {
  bID : string;
  bName : string;
  bArguments : string;
  bStarted : bool
}.

(** What the HTTP layer hands to [ChatStream]: the lines the scanner
    yields, and the error [scanner.Err()] reports once they are used up. *)
Record sseStream := mkStream {
  lines : list string;
  scanErr : option error
}.

Section Stream.
(** [json.Unmarshal([]byte(data), &chunk)] *)
Variable decodeChunk : string -> chatStreamChunk + error.

(** The body of [for _, tc := range delta.ToolCalls]: the builder map and
    the handler calls after one tool-call delta. *)
Definition applyDelta (st : gmap Z toolCallBuilder * list HandlerCall)
    (tc : chatToolCallDelta) : gmap Z toolCallBuilder * list HandlerCall :=
  let '(buildersByIndex, calls) := st in
  let idx := dIndex tc in
  let builder :=
    match buildersByIndex !! idx with
    | Some builder => builder
    | None => mkBuilder EmptyString EmptyString EmptyString false
    end in
  let builder :=
    if negb (isEmpty (dID tc))
    then mkBuilder (dID tc) (bName builder) (bArguments builder) (bStarted builder)
    else builder in
  let builder :=
    if negb (isEmpty (Name (dFunction tc)))
    then mkBuilder (bID builder) (Name (dFunction tc)) (bArguments builder) (bStarted builder)
    else builder in
  let '(builder, calls) :=
    if negb (bStarted builder) && negb (isEmpty (bID builder))
       && negb (isEmpty (bName builder))
    then (mkBuilder (bID builder) (bName builder) (bArguments builder) true,
          calls ++ [OnToolCallStart (bID builder) (bName builder)])
    else (builder, calls) in
  let '(builder, calls) :=
    if negb (isEmpty (Arguments (dFunction tc)))
    then (mkBuilder (bID builder) (bName builder)
            (bArguments builder +:+ Arguments (dFunction tc)) (bStarted builder),
          if negb (isEmpty (bID builder))
          then calls ++ [OnToolCallDelta (bID builder) (Arguments (dFunction tc))]
          else calls)
    else (builder, calls) in
  (<[idx := builder]> buildersByIndex, calls).

(** What one line of the response amounts to, by the tests that open the
    body of the scanning loop: a line to pass over (blank, not a [data:]
    line, empty data, or a chunk without choices), the [DONE] mark, a chunk
    that does not decode, or the first choice of a chunk. *)
Inductive lineKind :=
| LineSkip
| LineDone
| LineBad (err : error)
| LineChunk (choice : chatChoice).

Definition classifyLine (raw : string) : lineKind :=
  let line := TrimSpace raw in
  if isEmpty line then LineSkip
  else if negb (HasPrefix line "data:") then LineSkip
  else
    let data := TrimSpace (TrimPrefix line "data:") in
    if String.eqb data "[DONE]" then LineDone
    else if isEmpty data then LineSkip
    else
      match decodeChunk data with
      | inr err => LineBad err
      | inl chunk =>
          match Choices chunk with
          | [] => LineSkip
          | choice :: _ => LineChunk choice
          end
      end.

(** How the scanning loop leaves: by [break] on [DONE], by running out of
    lines, or by returning on a chunk that does not decode. *)
Inductive scanExit :=
| ExitDone
| ExitEOF
| ExitDecodeError (err : error).

(** What the loop does with the first choice of a chunk. *)
Definition applyChoice (st : gmap Z toolCallBuilder * list HandlerCall)
    (choice : chatChoice) : gmap Z toolCallBuilder * list HandlerCall :=
  let st :=
    if negb (isEmpty (DeltaContent choice))
    then (fst st, snd st ++ [OnContent (DeltaContent choice)])
    else st in
  foldl applyDelta st (DeltaToolCalls choice).

(** The loop [for scanner.Scan() { ... }]. *)
Fixpoint scanLines (input : list string)
    (st : gmap Z toolCallBuilder * list HandlerCall)
  : scanExit * (gmap Z toolCallBuilder * list HandlerCall) :=
  match input with
  | [] => (ExitEOF, st)
  | raw :: rest =>
      match classifyLine raw with
      | LineSkip => scanLines rest st
      | LineDone => (ExitDone, st)
      | LineBad err =>
          (ExitDecodeError err,
           (fst st, snd st ++ [OnError ("stream decode error: " +:+ err)]))
      | LineChunk choice => scanLines rest (applyChoice st choice)
      end
  end.

(** The loop [for _, builder := range buildersByIndex] that closes the tool
    calls.  Go leaves the order of a map range open; the model visits the
    builders in the order of [map_to_list]. *)
Definition endCalls (buildersByIndex : gmap Z toolCallBuilder) : list HandlerCall :=
  omap (fun entry =>
          let builder := snd entry in
          if negb (isEmpty (bArguments builder)) && negb (isEmpty (bID builder))
          then Some (OnToolCallEnd (bID builder)) else None)
       (map_to_list buildersByIndex).

(** [func (p *OpenAIProvider) ChatStream(...) error], from the answer of
    [doStreamRequest] on: the handler calls in order and the returned error. *)
Definition OpenAIProvider_ChatStream (request : sseStream + error) : list HandlerCall * option error :=
  match request with
  | inr err => ([OnError err], Some err)
  | inl stream =>
      match scanLines (lines stream) (∅, []) with
      | (ExitDecodeError err, (_, calls)) => (calls, Some err)
      | (exit, (buildersByIndex, calls)) =>
          match exit, scanErr stream with
          | ExitEOF, Some err =>
              (calls ++ [OnError ("stream error: " +:+ err)], Some err)
          | _, _ =>
              (calls ++ endCalls buildersByIndex ++ [OnComplete], None)
          end
      end
  end.

(** [type OpenAIProvider struct] as an [LLMProvider].  [doStreamRequest] is
    the method of that name applied to the encoded request: it performs the
    HTTP exchange and yields the response stream or an error. *)
Definition OpenAIProvider {W : Type}
    (doStreamRequest : list Message -> list object -> string -> W
                       -> (sseStream + error) * W)
    (defaultModel : string) : LLMProvider W :=
  mkLLMProvider
    (fun messages tools model w =>
       let model := if isEmpty model then defaultModel else model in
       let '(request, w') := doStreamRequest messages tools model w in
       (OpenAIProvider_ChatStream request, w'))
    defaultModel.

End Stream.

End Providers.

(** ** package session: the manager (manager.go) *)

Module SessionManager.
Import GoStrings Filepath.

(** [func sanitizeFilename(name string) string], byte by byte. *)
Definition sanitizeByte (c : ascii) : ascii :=
  let n := nat_of_ascii c in
  if (Nat.leb 97 n && Nat.leb n 122) || (Nat.leb 65 n && Nat.leb n 90)
     || (Nat.leb 48 n && Nat.leb n 57) || Nat.eqb n 45 || Nat.eqb n 95
  then c else ascii_of_nat 95.

Fixpoint sanitizeFilename (name : string) : string :=
  match name with
  | EmptyString => EmptyString
  | String c rest => String (sanitizeByte c) (sanitizeFilename rest)
  end.

(** [type Manager struct]: the cache maps a key to a pointer; [heap] holds
    the sessions the pointers refer to. *)
Record Manager := mkManager {
  workspace : string;
  sessions : gmap string nat;
  heap : gmap nat Session.Session
}.

(** [func NewManager(workspace string) *Manager] *)
Definition NewManager (workspace : string) : Manager := mkManager workspace ∅ ∅.

(** The session directory: the JSON files, by path, as the sessions they
    decode to. *)
Abbreviation files := (gmap string Session.Session).

(** [func (m *Manager) getSessionFilePath(key string) string] *)
Definition getSessionFilePath (m : Manager) (key : string) : string :=
  let name := ".sessions/" +:+ sanitizeFilename key +:+ ".json" in
  if isEmpty (workspace m) then Clean name
  else Clean (workspace m +:+ "/" +:+ name).

(** [func (m *Manager) loadFromFile(key string) *Session] *)
Definition loadFromFile (m : Manager) (disk : files) (key : string)
  : option Session.Session :=
  disk !! getSessionFilePath m key.

(** [func (m *Manager) GetOrCreate(key string) *Session] *)
Definition GetOrCreate (key : string) (m : Manager) (disk : files) : nat * Manager :=
  match sessions m !! key with
  | Some session => (session, m)
  | None =>
      let session :=
        match loadFromFile m disk key with
        | Some session => session
        | None => Session.newSession key
        end in
      let p := fresh (dom (heap m)) in
      (p, mkManager (workspace m) (<[key := p]> (sessions m)) (<[p := session]> (heap m)))
  end.

(** [func (s *Session) AddMessage(role, content string)] through the
    pointer [p]. *)
Definition AddMessage (p : nat) (role content : string) (now : Z) (m : Manager) : Manager :=
  mkManager (workspace m) (sessions m)
    (alter (Session.AddMessage role content now) p (heap m)).

(** [func (m *Manager) Save(session *Session) error]; the directory is
    taken to accept every write. *)
Definition Save (p : nat) (m : Manager) (disk : files) : Manager * files :=
  match heap m !! p with
  | Some session =>
      (mkManager (workspace m) (<[Session.Key session := p]> (sessions m)) (heap m),
       <[getSessionFilePath m (Session.Key session) := session]> disk)
  | None => (m, disk)
  end.

End SessionManager.

(** ** package bus: the message records (events.go) *)

Module Bus.

(** [type MediaAttachment struct] *)
Record MediaAttachment := mkMedia {
  MediaType : string;
  URL : string;
  FileID : string;
  MimeType : string
}.

(** [type InboundMessage struct] *)
Record InboundMessage := mkInbound {
  Channel : string;
  SenderID : string;
  ChatID : string;
  Content : string;
  Media : option MediaAttachment;
  SessionKey : string
}.

(** [func NewInboundMessage(channel, senderID, chatID, content string)] *)
Definition NewInboundMessage (channel senderID chatID content : string) : InboundMessage :=
  mkInbound channel senderID chatID content None (channel +:+ ":" +:+ chatID).

(** [type OutboundMessage struct] *)
Record OutboundMessage := mkOutbound {
  outChannel : string;
  outChatID : string;
  outContent : string
}.

(** [func NewOutboundMessage(channel, chatID, content string)] *)
Definition NewOutboundMessage (channel chatID content : string) : OutboundMessage :=
  mkOutbound channel chatID content.

End Bus.

(** ** package agent: the context builder and the loop (context.go,
    loop.go) *)

Module Agent.
Import GoStrings GoValue Runtime.

(** The calls [ProcessMessage] makes on its collaborators, recorded in the
    order it makes them: a streaming request with the error it returned, a
    registry dispatch, an append to a session, a save of a session. *)
Inductive Effect :=
| EChatStream (err : option error)
| EToolExecute (name : string) (args : object)
| ESessionAdd (role content : string)
| ESessionSave.

(** [type streamHandler struct]: the fields the callbacks write. *)
Record streamHandler := mkHandler {
  content : string;
  toolCalls : list Providers.ToolCall;
  accumulatingCalls : gmap string Providers.ToolCall
}.

(** [func newStreamHandler(...)] *)
Definition newStreamHandler : streamHandler := mkHandler EmptyString [] ∅.

(** The methods of [*streamHandler], by the call received.  [OnContent] and
    [OnToolCallStart] also pass text to [onDelta], which prints it on the
    [cli] channel; [OnError] prints. *)
Definition handle (h : streamHandler) (call : Providers.HandlerCall) : streamHandler :=
  match call with
  | Providers.OnContent token =>
      mkHandler (content h +:+ token) (toolCalls h) (accumulatingCalls h)
  | Providers.OnToolCallStart id name =>
      mkHandler (content h) (toolCalls h)
        (<[id := Providers.mkToolCall id "function"
                   (Providers.mkToolCallFunction name EmptyString)]>
           (accumulatingCalls h))
  | Providers.OnToolCallDelta id delta =>
      match accumulatingCalls h !! id with
      | Some tc =>
          mkHandler (content h) (toolCalls h)
            (<[id := Providers.mkToolCall (Providers.ID tc) (Providers.Type_ tc)
                       (Providers.mkToolCallFunction
                          (Providers.Name (Providers.Function tc))
                          (Providers.Arguments (Providers.Function tc) +:+ delta))]>
               (accumulatingCalls h))
      | None => h
      end
  | Providers.OnToolCallEnd id =>
      match accumulatingCalls h !! id with
      | Some tc =>
          mkHandler (content h) (toolCalls h ++ [tc]) (delete id (accumulatingCalls h))
      | None => h
      end
  | Providers.OnComplete => h
  | Providers.OnError _ => h
  end.

(** [func (b *ContextBuilder) AddAssistantMessage(...)] *)
Definition AddAssistantMessage (messages : list Providers.Message) (content : string)
    (toolCalls : list Providers.ToolCall) : list Providers.Message :=
  messages ++ [Providers.mkMessage "assistant" content EmptyString toolCalls].

(** [func (b *ContextBuilder) AddToolResult(...)] *)
Definition AddToolResult (messages : list Providers.Message)
    (toolCallID name result : string) : list Providers.Message :=
  messages ++ [Providers.mkMessage "tool" result toolCallID []].

(** [func (a *AgentLoop) convertSessionMessages(...)] *)
Definition convertSessionMessages (msgs : list Session.Message) : list Providers.Message :=
  (fun msg => Providers.mkMessage (Session.Role msg) (Session.Content msg) EmptyString [])
    <$> msgs.

(** The placeholder reply of [ProcessMessage]. *)
Definition placeholder : string :=
  "I've completed processing but have no response to give.".

Section WithRuntime.
Context {W : Type} `{RT : Runtime W}.

(** [func (b *ContextBuilder) buildSystemPrompt(channel, chatID,
    currentMessage string) string], for the workspace of the builder.  It
    reads the workspace files, the skills and the clock and writes nothing;
    its text is left open here. *)
Variable buildSystemPrompt : string -> string -> string -> string -> W -> string.

(** [func (b *ContextBuilder) BuildMessages(...)] *)
Definition BuildMessages (workspace : string) (history : list Providers.Message)
    (currentMessage : string) (media : option Bus.MediaAttachment)
    (channel chatID : string) (w : W) : list Providers.Message :=
  let systemPrompt := buildSystemPrompt workspace channel chatID currentMessage w in
  let content :=
    match media with
    | Some media => "[Media: " +:+ Bus.MediaType media +:+ "] " +:+ currentMessage
    | None => currentMessage
    end in
  [Providers.mkMessage "system" systemPrompt EmptyString []]
  ++ history
  ++ [Providers.mkMessage "user" content EmptyString []].

(** [type AgentLoop struct]: the fields [ProcessMessage] reads. *)
Record AgentLoop := mkAgentLoop {
  Provider : Providers.LLMProvider W;
  Workspace : string;
  Model : string;
  MaxIterations : Z;
  RestrictToWorkspace : bool;
  tools : gmap string (Tools.Tool (@Tools.ProgState W))
}.

(** What a running loop can change: the tool state, the session manager,
    the session directory; and the record of its calls. *)
Record AgentState := mkAgentState {
  prog : @Tools.ProgState W;
  manager : SessionManager.Manager;
  disk : SessionManager.files;
  trace : list Effect
}.

(** [func (a *AgentLoop) registerDefaultTools()], [defaults] being the tools
    it constructs, in its order. *)
Definition registerDefaultTools (defaults : list (Tools.Tool (@Tools.ProgState W)))
  : gmap string (Tools.Tool (@Tools.ProgState W)) :=
  foldl (fun r tool => snd (Tools.Register (Some tool) r)) ∅ defaults.


(** The body of [for _, tc := range toolCalls] in [ProcessMessage]. *)
Definition runToolCall (a : AgentLoop)
    (acc : list Providers.Message * AgentState) (tc : Providers.ToolCall)
  : list Providers.Message * AgentState :=
  let '(messages, st) := acc in
  let name := Providers.Name (Providers.Function tc) in
  let args :=
    match json_Unmarshal (Providers.Arguments (Providers.Function tc)) with
    | inl args => args
    | inr _ => []
    end in
  let '((result, err), prog') := Tools.Registry_Execute (tools a) name args (prog st) in
  let result :=
    match err with
    | Some err => "Error: " +:+ err
    | None => result
    end in
  (AddToolResult messages (Providers.ID tc) name result,
   mkAgentState prog' (manager st) (disk st) (trace st ++ [EToolExecute name args])).

(** The loop [for i := 0; i < a.MaxIterations; i++] of [ProcessMessage],
    with [n] iterations left: an error to return, or [finalContent]. *)
Fixpoint iterate (a : AgentLoop) (toolDefs : list object) (n : nat)
    (messages : list Providers.Message) (st : AgentState)
  : (string + error) * AgentState :=
  match n with
  | O => (inl EmptyString, st)
  | S n' =>
      let '((calls, err), w') :=
        Providers.ChatStream (Provider a) messages toolDefs (Model a)
          (Tools.world (prog st)) in
      let st :=
        mkAgentState (Tools.mkProgState (Tools.allowedDir (prog st)) w')
          (manager st) (disk st) (trace st ++ [EChatStream err]) in
      match err with
      | Some err => (inr ("LLM stream error: " +:+ err), st)
      | None =>
          let handler := foldl handle newStreamHandler calls in
          match toolCalls handler with
          | [] => (inl (content handler), st)
          | _ :: _ =>
              let messages :=
                AddAssistantMessage messages (content handler) (toolCalls handler) in
              let '(messages, st) :=
                foldl (runToolCall a) (messages, st) (toolCalls handler) in
              iterate a toolDefs n' messages st
          end
      end
  end.

(** [func (a *AgentLoop) ProcessMessage(ctx, msg)], which returns an outbound
    message or an error. *)
Definition ProcessMessage (a : AgentLoop) (msg : Bus.InboundMessage) (st : AgentState)
  : (Bus.OutboundMessage + error) * AgentState :=
  let '(sess, mgr) := SessionManager.GetOrCreate (Bus.SessionKey msg) (manager st) (disk st) in
  let st := mkAgentState (prog st) mgr (disk st) (trace st) in
  let history :=
    convertSessionMessages
      (match SessionManager.heap mgr !! sess with
       | Some s => Session.GetHistory s
       | None => []
       end) in
  let messages :=
    BuildMessages (Workspace a) history (Bus.Content msg) (Bus.Media msg)
      (Bus.Channel msg) (Bus.ChatID msg) (Tools.world (prog st)) in
  let toolDefs := Tools.GetDefinitions (tools a) in
  match iterate a toolDefs (Z.to_nat (MaxIterations a)) messages st with
  | (inr err, st) => (inr err, st)
  | (inl finalContent, st) =>
      let finalContent := if isEmpty finalContent then placeholder else finalContent in
      let '(now1, w1) := time_Now (Tools.world (prog st)) in
      let mgr := SessionManager.AddMessage sess "user" (Bus.Content msg) now1 (manager st) in
      let '(now2, w2) := time_Now w1 in
      let mgr := SessionManager.AddMessage sess "assistant" finalContent now2 mgr in
      let '(mgr, disk') := SessionManager.Save sess mgr (disk st) in
      (inl (Bus.NewOutboundMessage (Bus.Channel msg) (Bus.ChatID msg) finalContent),
       mkAgentState (Tools.mkProgState (Tools.allowedDir (prog st)) w2) mgr disk'
         (trace st ++ [ESessionAdd "user" (Bus.Content msg);
                       ESessionAdd "assistant" finalContent;
                       ESessionSave]))
  end.

End WithRuntime.

End Agent.

(** ** package config *)

Module Config.
Import GoStrings.

(** [type ProviderConfig struct { APIKey, APIBase string }] *)
Record ProviderConfig := mkProviderConfig {
  APIKey : string;
  APIBase : string
}.

(** [type ProvidersConfig struct], field for field. *)
Record ProvidersConfig := mkProvidersConfig {
  OpenRouter : ProviderConfig;
  Anthropic : ProviderConfig;
  OpenAI : ProviderConfig;
  DeepSeek : ProviderConfig;
  Groq : ProviderConfig;
  Gemini : ProviderConfig;
  Moonshot : ProviderConfig;
  VLLM : ProviderConfig
}.

(** [type Config struct]: the two parts [GetAPIKey] and [GetAPIBase] read,
    [Agents.Defaults.Model] and [Providers]. *)
Record Config := mkConfig {
  Model : string;
  Providers : ProvidersConfig
}.

(** The ordered slice [providers] of [GetAPIKey]: keyword and provider. *)
Definition keywordTable (c : Config) : list (string * ProviderConfig) :=
  let p := Providers c in
  [ ("openrouter", OpenRouter p);
    ("deepseek", DeepSeek p);
    ("anthropic", Anthropic p);
    ("claude", Anthropic p);
    ("openai", OpenAI p);
    ("gpt", OpenAI p);
    ("gemini", Gemini p);
    ("groq", Groq p);
    ("moonshot", Moonshot p);
    ("kimi", Moonshot p);
    ("vllm", VLLM p) ].

(** The slice of the fallback loop of [GetAPIKey]. *)
Definition fallbackTable (c : Config) : list ProviderConfig :=
  let p := Providers c in
  [ OpenRouter p; DeepSeek p; Anthropic p; OpenAI p;
    Gemini p; Moonshot p; VLLM p; Groq p ].

(** The first two statements of [GetAPIKey]: the default model stands in
    for an empty identifier, and the identifier is lowercased. *)
Definition effectiveModel (c : Config) (model : string) : string :=
  ToLower (if isEmpty model then Model c else model).

(** [func (c *Config) GetAPIKey(model string) string] *)
Definition GetAPIKey (c : Config) (model : string) : string :=
  let model := effectiveModel c model in
  match List.find (fun p => Contains model (fst p) && negb (isEmpty (APIKey (snd p))))
                  (keywordTable c) with
  | Some p => APIKey (snd p)
  | None =>
      match List.find (fun provider => negb (isEmpty (APIKey provider)))
                      (fallbackTable c) with
      | Some provider => APIKey provider
      | None => EmptyString
      end
  end.




End Config.

(** ** A small world to run the model in *)

Module Sample.
Import GoStrings GoValue Runtime.

(** The double quote as a string. *)
Definition dq : string := String (ascii_of_nat 34) EmptyString.

(** [n] copies of the byte [a]. *)
Fixpoint repeatByte (a : ascii) (n : nat) : string :=
  match n with
  | O => EmptyString
  | S n' => String a (repeatByte a n')
  end.

(** The world: the regular files, by absolute path. *)
Abbreviation World := (gmap string string).

(** A shell that knows four commands: [true] prints nothing, [yes] prints
    20000 bytes, [false] fails, [sleep] runs into the deadline. *)
Definition sampleShell (command dir : string) (timeout : Z) (w : World)
  : (string * option error * bool) * World :=
  if String.eqb command "true" then ((EmptyString, None, false), w)
  else if String.eqb command "yes" then ((repeatByte (ascii_of_nat 121) (200 * 100), None, false), w)
  else if String.eqb command "sleep" then ((EmptyString, Some "signal: killed", true), w)
  else ((EmptyString, Some "exit status 1", false), w).

(** A runtime on that world: working directory [/ws], no symbolic links, a
    decoder that knows the empty object only, and no dangerous pattern
    matching. *)
Definition sampleRuntime : Runtime World := {|
  Getwd := "/ws";
  UserHomeDir := inl "/home/user";
  EvalSymlinks := fun _ path => inl path;
  os_ReadFile := fun w path =>
    match w !! path with
    | Some text => inl text
    | None => inr ("open " +:+ path +:+ ": no such file or directory")
    end;
  sh_CombinedOutput := sampleShell;
  regexp_MatchString := fun _ _ => inl false;
  json_Unmarshal := fun text =>
    if String.eqb text "{}" then inl [] else inr "invalid character";
  fmt_float := fun f => fmt_d (intOfFloat f);
  fmt_values := fun _ => "[...]";
  fmt_duration := fun seconds => fmt_d seconds +:+ "s";
  time_Now := fun w => (0, w)
|}.

(** A file of three lines in the workspace [/ws] and a file next to it. *)
Definition sampleWorld : World :=
  {[ "/ws/notes.txt" := "line1" +:+ Tools.nl +:+ "line2" +:+ Tools.nl +:+ "line3";
     "/ws-evil/secret.txt" := "top secret" ]}.




(** The three chunks of the streaming scenario: the first delta carries id
    and name, the next two carry the argument text in two pieces. *)
Definition fragment1 : string := "{" +:+ dq +:+ "x" +:+ dq +:+ ":".
Definition fragment2 : string := "1}".

Definition choice1 : Providers.chatChoice :=
  Providers.mkChoice EmptyString
    [Providers.mkDelta 0 "A" "function" (Providers.mkToolCallFunction "f" EmptyString)]
    EmptyString.
Definition choice2 : Providers.chatChoice :=
  Providers.mkChoice EmptyString
    [Providers.mkDelta 0 EmptyString EmptyString
       (Providers.mkToolCallFunction EmptyString fragment1)]
    EmptyString.
Definition choice3 : Providers.chatChoice :=
  Providers.mkChoice EmptyString
    [Providers.mkDelta 0 EmptyString EmptyString
       (Providers.mkToolCallFunction EmptyString fragment2)]
    EmptyString.

(** A decoder that knows these chunks by the names [c1], [c2], [c3]. *)
Definition sampleDecode (data : string) : Providers.chatStreamChunk + error :=
  if String.eqb data "c1" then inl (Providers.mkChunk [choice1])
  else if String.eqb data "c2" then inl (Providers.mkChunk [choice2])
  else if String.eqb data "c3" then inl (Providers.mkChunk [choice3])
  else inr "unexpected end of JSON input".







(** The schema of [TestValidateParams]. *)
Definition testSchema : object :=
  [ ("type", VString "object");
    ("properties",
      VObject
        [ ("name", VObject [ ("type", VString "string");
                             ("minLength", VFloat (floatOfInt 2));
                             ("maxLength", VFloat (floatOfInt 50)) ]);
          ("age", VObject [ ("type", VString "integer");
                            ("minimum", VFloat (floatOfInt 0));
                            ("maximum", VFloat (floatOfInt 150)) ]);
          ("email", VObject [ ("type", VString "string") ]);
          ("tags", VObject [ ("type", VString "array");
                             ("items", VObject [ ("type", VString "string") ]) ]);
          ("address",
            VObject [ ("type", VString "object");
                      ("properties",
                        VObject [ ("city", VObject [ ("type", VString "string") ]) ]);
                      ("required", VArray [VString "city"]) ]) ]);
    ("required", VArray [VString "name"]) ].

(** The file of [TestReadFileTool], in the directory [/ws]. *)
Definition testWorld : World :=
  {[ "/ws/test.txt" :=
       "line1" +:+ Tools.nl +:+ "line2" +:+ Tools.nl +:+ "line3" +:+ Tools.nl
       +:+ "line4" +:+ Tools.nl +:+ "line5" ]}.

(** The configuration of [TestGetAPIKey]. *)
Definition testConfig : Config.Config :=
  let none := Config.mkProviderConfig EmptyString EmptyString in
  Config.mkConfig "anthropic/claude-opus-4-5"
    (Config.mkProvidersConfig
       (Config.mkProviderConfig "openrouter-key" EmptyString)
       (Config.mkProviderConfig "anthropic-key" EmptyString)
       (Config.mkProviderConfig "openai-key" EmptyString)
       none none none none none).



End Sample.

(** ** package tools: the rest of the registry and of the file tools *)

Module ToolsMore.
Import GoStrings GoValue Runtime Filepath Tools.

(** [func (r *Registry) List() []string], in the order the registry is
    ranged over. *)
Definition Registry_List {S} (r : gmap string (Tool S)) : list string :=
  fst <$> map_to_list r.

(** [func (r *Registry) Count() int] *)
Definition Registry_Count {S} (r : gmap string (Tool S)) : nat := size r.

(** The marker [truncateText] appends. *)
Definition contentMarker : string := nl +:+ nl +:+ "... (content truncated)".

(** [func truncateText(text string, maxLength int) string] *)
Definition truncateText (text : string) (maxLength : Z) : string :=
  if maxLength <=? 0 then text
  else if len text <=? maxLength then text
  else sliceTo text maxLength +:+ contentMarker.

(** [type WebFetchOptions struct] *)
Record WebFetchOptions := mkWebFetchOptions {
  Mode : string;
  NodePath : string;
  ScriptPath : string;
  TimeoutSec : Z;
  UserAgent : string;
  WaitUntil : string
}.

Definition defaultWebFetchUserAgent : string :=
  "Mozilla/5.0 (Macintosh; Intel Mac OS X 10_15_7) AppleWebKit/537.36 (KHTML, like Gecko) Chrome/120.0.0.0 Safari/537.36".

Definition defaultWebFetchWaitUntil : string := "domcontentloaded".

(** [func normalizeWebFetchOptions(options WebFetchOptions) WebFetchOptions] *)
Definition normalizeWebFetchOptions (options : WebFetchOptions) : WebFetchOptions :=
  mkWebFetchOptions
    (if isEmpty (TrimSpace (Mode options)) then "http" else Mode options)
    (NodePath options)
    (ScriptPath options)
    (if TimeoutSec options <=? 0 then 30 else TimeoutSec options)
    (if isEmpty (TrimSpace (UserAgent options))
     then defaultWebFetchUserAgent else UserAgent options)
    (if isEmpty (TrimSpace (WaitUntil options))
     then defaultWebFetchWaitUntil else WaitUntil options).

(** [strings.Replace(s, old, new, 1)]: the leftmost occurrence of [old] is
    replaced; an empty [old] occurs at the start. *)
Fixpoint ReplaceFirst (s old new : string) : string :=
  if HasPrefix s old then
    new +:+ String.substring (String.length old) (String.length s - String.length old) s
  else
    match s with
    | EmptyString => EmptyString
    | String a rest => String a (ReplaceFirst rest old new)
    end.

(** The part of a path up to its last separator, the separator included:
    [path[:i+1]] in [filepath.Dir]. *)
Fixpoint uptoLastSeparator (path : string) : string :=
  match path with
  | EmptyString => EmptyString
  | String a rest =>
      if Ascii.eqb a Separator || Contains rest "/"
      then String a (uptoLastSeparator rest) else EmptyString
  end.

(** [filepath.Dir] *)
Definition Dir (path : string) : string := Clean (uptoLastSeparator path).

(** The writing side of the operating system: [os.MkdirAll(dir, 0755)] and
    [os.WriteFile(path, data, 0644)], each with the error it returns and the
    world it leaves. *)
Class FileSystem (W : Type) := {
  os_MkdirAll : string -> W -> option error * W;
  os_WriteFile : string -> string -> W -> option error * W
}.

Section WithRuntime.
Context {W : Type} `{RT : Runtime W} `{FS : FileSystem W}.

(** [func (t *WriteFileTool) Execute(ctx, params) (string, error)] *)
Definition WriteFileTool_Execute (allowedDir : string) (params : object) (w : W)
  : result * W :=
  let path := getString params "path" in
  let content := getString params "content" in
  if isEmpty path then ((EmptyString, Some "path is required"), w)
  else
    match resolvePath allowedDir path with
    | (_, Some err) => ((EmptyString, Some err), w)
    | (resolvedPath, None) =>
        match os_MkdirAll (Dir resolvedPath) w with
        | (Some err, w1) =>
            ((EmptyString, Some ("failed to create directory: " +:+ err)), w1)
        | (None, w1) =>
            match os_WriteFile resolvedPath content w1 with
            | (Some err, w2) =>
                ((EmptyString, Some ("failed to write file: " +:+ err)), w2)
            | (None, w2) =>
                (("File written successfully: " +:+ resolvedPath, None), w2)
            end
        end
    end.

(** [func (t *EditFileTool) Execute(ctx, params) (string, error)] *)
Definition EditFileTool_Execute (allowedDir : string) (params : object) (w : W)
  : result * W :=
  let path := getString params "path" in
  let oldString := getString params "old_string" in
  let newString := getString params "new_string" in
  if isEmpty path then ((EmptyString, Some "path is required"), w)
  else
    match resolvePath allowedDir path with
    | (_, Some err) => ((EmptyString, Some err), w)
    | (resolvedPath, None) =>
        match os_ReadFile w resolvedPath with
        | inr err => ((EmptyString, Some ("failed to read file: " +:+ err)), w)
        | inl oldContent =>
            if negb (Contains oldContent oldString) then
              ((EmptyString, Some "old_string not found in file"), w)
            else
              match os_WriteFile resolvedPath
                      (ReplaceFirst oldContent oldString newString) w with
              | (Some err, w1) =>
                  ((EmptyString, Some ("failed to write file: " +:+ err)), w1)
              | (None, w1) =>
                  (("File edited successfully: " +:+ resolvedPath, None), w1)
              end
        end
    end.

End WithRuntime.

End ToolsMore.

(** ** package providers: the request side of the client (openai.go) *)

Module ProvidersMore.
Import GoStrings GoValue Providers.

(** [type chatToolCall struct] *)
Record chatToolCall := mkChatToolCall {
  cID : string;
  cType : string;
  cFunction : ToolCallFunction
}.

(** [type chatMessage struct] *)
Record chatMessage := mkChatMessage {
  cRole : string;
  cContent : string;
  cToolCallID : string;
  cToolCalls : list chatToolCall
}.

(** [type chatRequest struct]; [ToolChoice] is [nil] or a string. *)
Record chatRequest := mkChatRequest {
  rModel : string;
  rMessages : list chatMessage;
  rTools : list object;
  rToolChoice : option string;
  rStream : bool
}.

(** The body of the loop of [convertToChatMessages] for one message. *)
Definition convertMessage (msg : Message) : chatMessage :=
  mkChatMessage
    (Role msg)
    (if negb (isEmpty (Content msg)) || negb (String.eqb (Role msg) "assistant")
     then Content msg else EmptyString)
    (if String.eqb (Role msg) "tool" then ToolCallID msg else EmptyString)
    (match ToolCalls msg with
     | [] => []
     | _ :: _ =>
         (fun tc => mkChatToolCall (ID tc) (Type_ tc)
                      (mkToolCallFunction (Name (Function tc))
                                          (Arguments (Function tc))))
           <$> ToolCalls msg
     end).

(** [func convertToChatMessages(messages []Message) []chatMessage] *)
Definition convertToChatMessages (messages : list Message) : list chatMessage :=
  convertMessage <$> messages.

(** [func buildChatRequest(messages, tools, model, stream) chatRequest] *)
Definition buildChatRequest (messages : list Message) (tools : list object)
    (model : string) (stream : bool) : chatRequest :=
  match tools with
  | [] => mkChatRequest model (convertToChatMessages messages) [] None stream
  | _ :: _ =>
      mkChatRequest model (convertToChatMessages messages) tools (Some "auto") stream
  end.

End ProvidersMore.

(** ** package config: the base URL (schema.go) *)

Module ConfigMore.
Import GoStrings Config.

(** [func (c *Config) GetAPIBase(model string) string] *)
Definition GetAPIBase (c : Config) (model : string) : string :=
  let model := effectiveModel c model in
  if Contains model "openrouter" then
    if negb (isEmpty (APIBase (OpenRouter (Providers c))))
    then APIBase (OpenRouter (Providers c))
    else "https://openrouter.ai/api/v1"
  else if Contains model "vllm" then APIBase (VLLM (Providers c))
  else if Contains model "moonshot" || Contains model "kimi" then
    if negb (isEmpty (APIBase (Moonshot (Providers c))))
    then APIBase (Moonshot (Providers c))
    else "https://api.moonshot.cn/v1"
  else if Contains model "deepseek" then
    if negb (isEmpty (APIBase (DeepSeek (Providers c))))
    then APIBase (DeepSeek (Providers c))
    else "https://api.deepseek.com/v1"
  else EmptyString.

End ConfigMore.

(** ** package bus: the queues *)

Module MessageBus.

(** [var ErrBusClosed], [var ErrBufferFull] *)
Definition ErrBusClosed : error := "message bus is closed".
Definition ErrBufferFull : error := "message buffer is full".

(** [type MessageBus struct]: each buffered channel is the list of the
    messages it holds, the oldest first, with its capacity; a message is a
    pointer and may be [nil].  One call is one step: the channel operations
    and the lock make each of them atomic. *)
Record MessageBus := mkBus {
  inbound : list (option Bus.InboundMessage);
  outbound : list (option Bus.OutboundMessage);
  capacity : nat;
  closed : bool
}.

(** [func NewMessageBus(bufferSize int) *MessageBus] *)
Definition NewMessageBus (bufferSize : Z) : MessageBus :=
  mkBus [] [] (if bufferSize <=? 0 then 100 else Z.to_nat bufferSize) false.

(** [func (b *MessageBus) PublishInbound(msg *InboundMessage) error] *)
Definition PublishInbound (msg : option Bus.InboundMessage) (b : MessageBus)
  : option error * MessageBus :=
  if closed b then (Some ErrBusClosed, b)
  else if (length (inbound b) <? capacity b)%nat
  then (None, mkBus (inbound b ++ [msg]) (outbound b) (capacity b) (closed b))
  else (Some ErrBufferFull, b).

(** [func (b *MessageBus) PublishOutbound(msg *OutboundMessage) error] *)
Definition PublishOutbound (msg : option Bus.OutboundMessage) (b : MessageBus)
  : option error * MessageBus :=
  if closed b then (Some ErrBusClosed, b)
  else if (length (outbound b) <? capacity b)%nat
  then (None, mkBus (inbound b) (outbound b ++ [msg]) (capacity b) (closed b))
  else (Some ErrBufferFull, b).

(** [func (b *MessageBus) TryConsumeInbound()], which returns a message and
    a flag: a receive on a closed and drained channel is ready and yields
    [nil]. *)
Definition TryConsumeInbound (b : MessageBus)
  : (option Bus.InboundMessage * bool) * MessageBus :=
  match inbound b with
  | msg :: rest => ((msg, true), mkBus rest (outbound b) (capacity b) (closed b))
  | [] => if closed b then ((None, true), b) else ((None, false), b)
  end.

(** [func (b *MessageBus) TryConsumeOutbound()] *)
Definition TryConsumeOutbound (b : MessageBus)
  : (option Bus.OutboundMessage * bool) * MessageBus :=
  match outbound b with
  | msg :: rest => ((msg, true), mkBus (inbound b) rest (capacity b) (closed b))
  | [] => if closed b then ((None, true), b) else ((None, false), b)
  end.

(** [func (b *MessageBus) Close()] *)
Definition Close (b : MessageBus) : MessageBus :=
  if negb (closed b) then mkBus (inbound b) (outbound b) (capacity b) true else b.

(** [func (b *MessageBus) IsClosed() bool] *)
Definition IsClosed (b : MessageBus) : bool := closed b.

End MessageBus.

(** ** Notions the statements below are written with *)

Module Notions.
Import GoStrings GoValue Runtime Tools Agent.





(** The effects of the reasoning loop when no request fails: streaming
    requests that returned no error, and registry dispatches. *)
Definition loopEffect (e : Effect) : Prop :=
  match e with
  | EChatStream None => True
  | EToolExecute _ _ => True
  | _ => False
  end.

(** A streaming request, failed or not. *)
Definition isChatStream (e : Effect) : bool :=
  match e with
  | EChatStream _ => true
  | _ => false
  end.

(** The number of streaming requests in a record of effects. *)
Definition countChatStream (effects : list Effect) : nat :=
  length (List.filter isChatStream effects).


End Notions.

(** ** More of the small world *)

Module MoreSamples.
Import GoStrings GoValue Runtime.

(** The sample runtime with a matcher that knows one of the dangerous
    patterns, the one for [mkfs.]. *)
Definition matchingRuntime : Runtime Sample.World := {|
  Getwd := "/ws";
  UserHomeDir := inl "/home/user";
  EvalSymlinks := fun _ path => inl path;
  os_ReadFile := fun w path =>
    match w !! path with
    | Some text => inl text
    | None => inr ("open " +:+ path +:+ ": no such file or directory")
    end;
  sh_CombinedOutput := Sample.sampleShell;
  regexp_MatchString := fun pattern text =>
    inl (String.eqb pattern "mkfs\." && Contains text "mkfs.");
  json_Unmarshal := fun text =>
    if String.eqb text "{}" then inl [] else inr "invalid character";
  fmt_float := fun f => fmt_d (intOfFloat f);
  fmt_values := fun _ => "[...]";
  fmt_duration := fun seconds => fmt_d seconds +:+ "s";
  time_Now := fun w => (0, w)
|}.

(** Writing on the sample world: directories need no making, a write puts
    the text under the path. *)
Definition sampleFileSystem : ToolsMore.FileSystem Sample.World := {|
  ToolsMore.os_MkdirAll := fun _ w => (None, w);
  ToolsMore.os_WriteFile := fun path text w => (None, <[path := text]> w)
|}.

End MoreSamples.

(** ** Notions the further statements are written with *)

Module MoreNotions.
Import GoStrings GoValue Runtime Tools Agent.


(** Every pointer in the cache of a manager refers to a session. *)
Definition wellFormed (m : SessionManager.Manager) : Prop :=
  forall key p, SessionManager.sessions m !! key = Some p ->
                is_Some (SessionManager.heap m !! p).

Section Validation.
Context {W : Type} `{RT : Runtime W}.

(** The names a schema requires: a [[]string], or the strings of a
    [[]interface{}]. *)
Definition requiredNames (schema : object) : list string :=
  match mapGet schema "required" with
  | Some (VStrings required) => required
  | Some (VArray required) => stringsOf required
  | _ => []
  end.

(** The property schemas of a schema. *)
Definition propertiesOf (schema : object) : object :=
  match mapGet schema "properties" with
  | Some (VObject props) => props
  | _ => []
  end.

(** One argument is acceptable: its name has no property schema, or its
    value validates against it. *)
Definition entryAccepted (properties : object) (entry : string * value) : Prop :=
  match mapGet properties (fst entry) with
  | Some (VObject propMap) => validateValue (snd entry) propMap (fst entry) = None
  | _ => True
  end.

End Validation.

(** [content] is [pre], then [old], then [post], and [old] occurs nowhere
    further to the left. *)
Definition firstOccurrence (content old pre post : string) : Prop :=
  content = pre +:+ old +:+ post
  /\ forall pre' post',
       content = pre' +:+ old +:+ post' ->
       (String.length pre <= String.length pre')%nat.

(** The calls a client makes while it reads a stream, well formed: a token
    that is not empty, a start with an id and a name, a fragment that is not
    empty for a call with an id. *)
Definition streamingCall (call : Providers.HandlerCall) : Prop :=
  match call with
  | Providers.OnContent token => token <> EmptyString
  | Providers.OnToolCallStart id name => id <> EmptyString /\ name <> EmptyString
  | Providers.OnToolCallDelta id delta => id <> EmptyString /\ delta <> EmptyString
  | _ => False
  end.

(** The texts of a list, one after the other. *)
Definition concatAll (fragments : list string) : string :=
  foldr String.append EmptyString fragments.

(** The inbound messages of a list published one after the other: the
    errors returned, in order, and the bus left. *)
Definition publishAll (msgs : list (option Bus.InboundMessage)) (b : MessageBus.MessageBus)
  : list (option error) * MessageBus.MessageBus :=
  foldl (fun acc msg =>
           (fst acc ++ [fst (MessageBus.PublishInbound msg (snd acc))],
            snd (MessageBus.PublishInbound msg (snd acc))))
        ([], b) msgs.

(** [n] calls of [TryConsumeInbound]: what they returned, in order, and the
    bus left. *)
Fixpoint consumeN (n : nat) (b : MessageBus.MessageBus)
  : list (option Bus.InboundMessage * bool) * MessageBus.MessageBus :=
  match n with
  | O => ([], b)
  | S n' =>
      let r := MessageBus.TryConsumeInbound b in
      (fst r :: fst (consumeN n' (snd r)), snd (consumeN n' (snd r)))
  end.

End MoreNotions.

(** * Properties *)

(** ** The unit tests of the repository, replayed on the model *)

Module RepositoryTests.
Import GoStrings GoValue Runtime Tools.

(** [TestMessageLimit]: 55 appends leave 50 messages. *)
Example TestMessageLimit :
  length (Session.Messages
            (Session.appendAll
               (replicate 55 (Session.mkMessage "user" "message" 0))
               (Session.mkSession "test" []))) = 50%nat.
Proof. vm_compute. reflexivity. Qed.

(** [TestSanitizeFilename] *)
Example TestSanitizeFilename :
  SessionManager.sanitizeFilename "cli:test123" = "cli_test123"
  /\ SessionManager.sanitizeFilename "telegram:user@domain" = "telegram_user_domain"
  /\ SessionManager.sanitizeFilename "discord:user#1234" = "discord_user_1234"
  /\ SessionManager.sanitizeFilename "normal" = "normal".
Proof. repeat split. Qed.

(** [TestGetAPIKey] and [TestGetAPIKeyNoKeys] *)
Example TestGetAPIKey :
  Config.GetAPIKey Sample.testConfig "openrouter/gpt-4" = "openrouter-key"
  /\ Config.GetAPIKey Sample.testConfig "anthropic/claude-3" = "anthropic-key"
  /\ Config.GetAPIKey Sample.testConfig "claude-3-opus" = "anthropic-key"
  /\ Config.GetAPIKey Sample.testConfig "gpt-4" = "openai-key"
  /\ Config.GetAPIKey Sample.testConfig "openai/gpt-3.5" = "openai-key"
  /\ Config.GetAPIKey Sample.testConfig "unknown-model" = "openrouter-key"
  /\ Config.GetAPIKey
       (Config.mkConfig "anthropic/claude-opus-4-5"
          (let none := Config.mkProviderConfig EmptyString EmptyString in
           Config.mkProvidersConfig none none none none none none none none))
       "any-model" = EmptyString.
Proof. repeat split. Qed.

(** [TestValidateParams], case by case. *)
Example TestValidateParams :
  let check := ValidateParams (RT := Sample.sampleRuntime) (Some Sample.testSchema) in
  check [("name", VString "John"); ("age", VInt 30)] = None
  /\ check [("age", VInt 30)] = Some "missing required parameter: name"
  /\ check [("name", VString "John"); ("age", VString "thirty")]
     = Some "age should be integer"
  /\ check [("name", VString "J")] = Some "name must be at least 2 chars"
  /\ check [("name", VString "John"); ("age", VInt (-5))] = Some "age must be >= 0"
  /\ check [("name", VString "John"); ("address", VObject [])]
     = Some "address.missing required parameter: city"
  /\ check [("name", VString "John"); ("tags", VArray [VInt 1; VInt 2; VInt 3])]
     = Some "tags[0] should be string".
Proof. cbv zeta. repeat split; vm_compute; reflexivity. Qed.

(** [TestReadFileTool]: the whole file, a limit, an offset, a missing file
    and a path outside the allowed directory. *)
Example TestReadFileTool :
  let read := fun params =>
    ReadFileTool_Execute (RT := Sample.sampleRuntime) "/ws" params Sample.testWorld in
  read [("path", VString "/ws/test.txt")]
  = ("line1" +:+ nl +:+ "line2" +:+ nl +:+ "line3" +:+ nl +:+ "line4" +:+ nl +:+ "line5",
     None)
  /\ read [("path", VString "/ws/test.txt"); ("limit", VInt 2)]
     = ("line1" +:+ nl +:+ "line2", None)
  /\ read [("path", VString "/ws/test.txt"); ("offset", VInt 2)]
     = ("line3" +:+ nl +:+ "line4" +:+ nl +:+ "line5", None)
  /\ snd (read [("path", VString "/ws/nonexistent.txt")]) <> None
  /\ snd (read [("path", VString "/etc/passwd")]) <> None.
Proof. cbv zeta. repeat split; vm_compute; (reflexivity || discriminate). Qed.

(** [TestExecToolRestrictToWorkspace], on the check that decides each case. *)
Example TestExecToolRestrictToWorkspace :
  let check := fun command =>
    validateCommandInWorkspace (RT := Sample.sampleRuntime) Sample.sampleWorld
      command "/ws" in
  check "echo ok > file.txt && cat file.txt" = None
  /\ check "cat /etc/passwd" = Some "path '/etc/passwd' is outside workspace"
  /\ check "cd .. && ls" = Some "path '..' is outside workspace"
  /\ check "ls ~" = Some "path '~' is not allowed in restricted mode".
Proof. cbv zeta. repeat split; vm_compute; reflexivity. Qed.

(** [TestExecTool], the timeout case: a text, not an error. *)
Example TestExecTool_timeout :
  fst (ExecTool_Execute (RT := Sample.sampleRuntime) (NewExecTool "/ws" 5 false)
         [("command", VString "sleep"); ("timeout", VFloat (floatOfInt 1))]
         Sample.sampleWorld)
  = ("Command timed out after 1s" +:+ nl +:+ "Partial output:" +:+ nl, None).
Proof. vm_compute. reflexivity. Qed.

End RepositoryTests.

(** ** Properties of the session log *)

Module SessionFacts.
Import Session.

Lemma lastn_length {A} (n : nat) (l : list A) :
  length (lastn n l) = Nat.min (length l) n.
Proof. unfold lastn. rewrite length_drop. lia. Qed.

Lemma lastn_all {A} (n : nat) (l : list A) :
  (length l <= n)%nat -> lastn n l = l.
Proof.
  intros Hle. unfold lastn.
  replace (length l - n)%nat with 0%nat by lia. reflexivity.
Qed.

Lemma lastn_snoc {A} (n : nat) (l : list A) (x : A) :
  (0 < n)%nat -> lastn n (lastn n l ++ [x]) = lastn n (l ++ [x]).
Proof.
  intros Hn. unfold lastn.
  rewrite !length_app, length_drop. simpl.
  rewrite drop_app_le by (rewrite length_drop; lia).
  rewrite (drop_app_le l) by lia.
  rewrite drop_drop. f_equal. f_equal. lia.
Qed.

Lemma AddMessage_Messages role content now s :
  Messages (AddMessage role content now s)
  = lastn maxMessages (Messages s ++ [mkMessage role content now]).
Proof.
  unfold AddMessage. simpl. case_decide as Hlen.
  - reflexivity.
  - symmetry. apply lastn_all. lia.
Qed.

Lemma AddMessage_Key role content now s :
  Key (AddMessage role content now s) = Key s.
Proof. reflexivity. Qed.

Lemma message_eta m : mkMessage (Role m) (Content m) (Timestamp m) = m.
Proof. destruct m; reflexivity. Qed.

(** Appending to a log that already is a tail window keeps it one. *)
Lemma appendAll_window turns : forall s all,
  Messages s = lastn maxMessages all ->
  Messages (appendAll turns s) = lastn maxMessages (all ++ turns).
Proof.
  induction turns as [|m turns IH]; intros s all Hs.
  - simpl. rewrite app_nil_r. exact Hs.
  - simpl. replace (all ++ m :: turns) with ((all ++ [m]) ++ turns)
      by (rewrite <- app_assoc; reflexivity).
    apply IH. rewrite AddMessage_Messages, Hs, message_eta.
    apply lastn_snoc. unfold maxMessages. lia.
Qed.

(** C2. For every session key and every sequence of [n] appended turns,
    starting from the empty record the store creates for a new key, the
    stored list has [min n 50] turns and is exactly the last 50 appended
    turns in their order (the oldest ones are the ones evicted). *)
Theorem C2_append_tail_window (key : string) (turns : list Message) :
  let s := appendAll turns (newSession key) in
  length (Messages s) = Nat.min (length turns) 50
  /\ Messages s = lastn 50 turns
  /\ (exists evicted, turns = evicted ++ Messages s
        /\ length evicted = (length turns - 50)%nat).
Proof.
  cbv zeta.
  assert (Hw : Messages (appendAll turns (newSession key)) = lastn 50 turns).
  { change 50%nat with maxMessages.
    rewrite (appendAll_window turns (newSession key) []); [reflexivity|].
    reflexivity. }
  split; [rewrite Hw; apply lastn_length|].
  split; [exact Hw|].
  exists (take (length turns - 50) turns). split.
  - rewrite Hw. unfold lastn. symmetry. apply take_drop.
  - rewrite length_take. lia.
Qed.

End SessionFacts.

(** ** Properties of provider routing *)

Module ConfigFacts.
Import GoStrings Config.





End ConfigFacts.

(** ** Properties of the string helpers *)

Module StringFacts.
Import GoStrings.

Lemma isEmpty_true (s : string) : isEmpty s = true <-> s = EmptyString.
Proof. destruct s; simpl; split; congruence. Qed.

Lemma isEmpty_false (s : string) : isEmpty s = false <-> s <> EmptyString.
Proof. destruct s; simpl; split; congruence. Qed.




Lemma length_append (s t : string) :
  String.length (s +:+ t) = (String.length s + String.length t)%nat.
Proof. induction s as [|a s IH]; simpl; [reflexivity|]. now rewrite IH. Qed.


Lemma len_append (s t : string) : len (s +:+ t) = len s + len t.
Proof. unfold len. rewrite length_append. lia. Qed.


End StringFacts.

(** ** Properties of the tools *)

Module ToolsFacts.
Import GoStrings GoValue Runtime Filepath Tools Notions StringFacts.

(** *** The allowed directory *)

(** C5. With the allowed directory [/ws], the path [/ws-evil/secret.txt] is
    absolute and clean and does not lie beneath the root, as the containment
    test of the shell tool says; [resolvePath] accepts it all the same,
    because it compares the two paths as strings, and [read_file] returns
    the content of the file. *)
Theorem C5_sibling_directory_escapes :
  Abs (Getwd (Runtime := Sample.sampleRuntime)) "/ws-evil/secret.txt"
    = "/ws-evil/secret.txt"
  /\ isWithin "/ws" "/ws-evil/secret.txt" = false
  /\ resolvePath (RT := Sample.sampleRuntime) "/ws" "/ws-evil/secret.txt"
     = ("/ws-evil/secret.txt", None)
  /\ ReadFileTool_Execute (RT := Sample.sampleRuntime) "/ws"
       [("path", VString "/ws-evil/secret.txt")] Sample.sampleWorld
     = ("top secret", None).
Proof. repeat split; vm_compute; reflexivity. Qed.

(** A path the check does reject is not read: the tool fails with the error
    of the check. *)
Lemma ReadFileTool_rejected {W} `{RT : Runtime W} allowedDir params w err text :
  isEmpty (getString params "path") = false ->
  resolvePath allowedDir (getString params "path") = (text, Some err) ->
  ReadFileTool_Execute allowedDir params w = (EmptyString, Some err).
Proof.
  intros Hpath Hres. unfold ReadFileTool_Execute. cbv zeta.
  rewrite Hpath, Hres. reflexivity.
Qed.

(** *** read_file *)

Section ReadFile.
Context {W : Type} `{RT : Runtime W}.





End ReadFile.



(** *** The registry *)



(** *** The shell tool *)


Lemma truncationMarker_len : maxOutputSize + len truncationMarker = 10263.
Proof. vm_compute. reflexivity. Qed.





End ToolsFacts.

(** ** Properties of the streaming client *)

Module ProvidersFacts.
Import GoStrings Providers Notions StringFacts.

Section Stream.
Variable decodeChunk : string -> chatStreamChunk + error.







End Stream.


(** The handler of the agent loop, fed with the calls of the scenario,
    holds one finished tool call [A] of [f] with the whole argument text. *)
Lemma scenario_handler_assembles :
  Agent.toolCalls
    (foldl Agent.handle Agent.newStreamHandler
       [ OnToolCallStart "A" "f";
         OnToolCallDelta "A" Sample.fragment1;
         OnToolCallDelta "A" Sample.fragment2;
         OnToolCallEnd "A";
         OnComplete ])
  = [mkToolCall "A" "function"
       (mkToolCallFunction "f" ("{" +:+ Sample.dq +:+ "x" +:+ Sample.dq +:+ ":1}"))].
Proof. vm_compute. reflexivity. Qed.

End ProvidersFacts.

(** ** Properties of the agent loop *)

Module AgentFacts.
Import GoStrings GoValue Runtime Agent Notions StringFacts.

Section Loop.
Context {W : Type} `{RT : Runtime W}.
Variable buildSystemPrompt : string -> string -> string -> string -> W -> string.

Lemma countChatStream_app l1 l2 :
  countChatStream (l1 ++ l2) = (countChatStream l1 + countChatStream l2)%nat.
Proof. unfold countChatStream. now rewrite List.filter_app, length_app. Qed.

Lemma runToolCall_frame a acc tc :
  manager (snd (runToolCall a acc tc)) = manager (snd acc)
  /\ disk (snd (runToolCall a acc tc)) = disk (snd acc)
  /\ exists name args,
       trace (snd (runToolCall a acc tc)) = trace (snd acc) ++ [EToolExecute name args].
Proof.
  destruct acc as [messages st]. unfold runToolCall.
  destruct (Tools.Registry_Execute _ _ _ _) as [[result err] prog'].
  simpl. repeat split. eauto.
Qed.

Lemma runToolCalls_frame a tcs : forall acc,
  manager (snd (foldl (runToolCall a) acc tcs)) = manager (snd acc)
  /\ disk (snd (foldl (runToolCall a) acc tcs)) = disk (snd acc)
  /\ exists body,
       trace (snd (foldl (runToolCall a) acc tcs)) = trace (snd acc) ++ body
       /\ Forall loopEffect body
       /\ countChatStream body = 0%nat.
Proof.
  induction tcs as [|tc tcs IH]; intros acc.
  - simpl. repeat split. exists []. rewrite app_nil_r. repeat split. constructor.
  - simpl. destruct (IH (runToolCall a acc tc)) as (Hm & Hd & body & Ht & Hbody & Hcount).
    destruct (runToolCall_frame a acc tc) as (Hm1 & Hd1 & name & args & Ht1).
    rewrite Hm, Hd, Ht, Hm1, Hd1, Ht1. repeat split.
    exists (EToolExecute name args :: body). rewrite <- app_assoc. repeat split.
    + constructor; [exact I|exact Hbody].
    + exact Hcount.
Qed.

(** One iteration of the loop, by the outcome of its streaming request. *)
Lemma iterate_step a toolDefs n messages st :
  iterate a toolDefs (S n) messages st
  = let r := Providers.ChatStream (Provider a) messages toolDefs (Model a)
               (Tools.world (prog st)) in
    let st1 :=
      mkAgentState (Tools.mkProgState (Tools.allowedDir (prog st)) (snd r))
        (manager st) (disk st) (trace st ++ [EChatStream (snd (fst r))]) in
    match snd (fst r) with
    | Some err => (inr ("LLM stream error: " +:+ err), st1)
    | None =>
        let handler := foldl handle newStreamHandler (fst (fst r)) in
        match toolCalls handler with
        | [] => (inl (content handler), st1)
        | _ :: _ =>
            let acc :=
              foldl (runToolCall a)
                (AddAssistantMessage messages (content handler) (toolCalls handler), st1)
                (toolCalls handler) in
            iterate a toolDefs n (fst acc) (snd acc)
        end
    end.
Proof.
  simpl.
  destruct (Providers.ChatStream (Provider a) messages toolDefs (Model a)
              (Tools.world (prog st))) as [[calls err] w'].
  simpl. destruct err as [err|]; [reflexivity|].
  destruct (toolCalls (foldl handle newStreamHandler calls)) as [|tc tcs] eqn:Htcs;
    [reflexivity|].
  destruct (foldl (runToolCall a) _ (tc :: tcs)) as [messages' st'].
  reflexivity.
Qed.


(** [ProcessMessage] with its steps named. *)
Lemma ProcessMessage_steps a msg st :
  ProcessMessage buildSystemPrompt a msg st
  = let g := SessionManager.GetOrCreate (Bus.SessionKey msg) (manager st) (disk st) in
    let st0 := mkAgentState (prog st) (snd g) (disk st) (trace st) in
    let history :=
      convertSessionMessages
        (match SessionManager.heap (snd g) !! fst g with
         | Some s => Session.GetHistory s
         | None => []
         end) in
    let messages :=
      BuildMessages buildSystemPrompt (Workspace a) history (Bus.Content msg)
        (Bus.Media msg) (Bus.Channel msg) (Bus.ChatID msg) (Tools.world (prog st)) in
    let it := iterate a (Tools.GetDefinitions (tools a))
                (Z.to_nat (MaxIterations a)) messages st0 in
    match fst it with
    | inr err => (inr err, snd it)
    | inl finalContent =>
        let finalContent := if isEmpty finalContent then placeholder else finalContent in
        let t1 := time_Now (Tools.world (prog (snd it))) in
        let t2 := time_Now (snd t1) in
        let saved :=
          SessionManager.Save (fst g)
            (SessionManager.AddMessage (fst g) "assistant" finalContent (fst t2)
               (SessionManager.AddMessage (fst g) "user" (Bus.Content msg) (fst t1)
                  (manager (snd it))))
            (disk (snd it)) in
        (inl (Bus.NewOutboundMessage (Bus.Channel msg) (Bus.ChatID msg) finalContent),
         mkAgentState (Tools.mkProgState (Tools.allowedDir (prog (snd it))) (snd t2))
           (fst saved) (snd saved)
           (trace (snd it)
            ++ [ESessionAdd "user" (Bus.Content msg);
                ESessionAdd "assistant" finalContent;
                ESessionSave]))
    end.
Proof.
  unfold ProcessMessage.
  destruct (SessionManager.GetOrCreate (Bus.SessionKey msg) (manager st) (disk st))
    as [sess mgr].
  cbv zeta. simpl fst. simpl snd.
  destruct (iterate a _ _ _ _) as [[fc|err] st1]; [|reflexivity].
  simpl fst. simpl snd.
  destruct (time_Now (Tools.world (prog st1))) as [now1 w1]. simpl fst. simpl snd.
  destruct (time_Now w1) as [now2 w2]. simpl fst. simpl snd.
  destruct (SessionManager.Save _ _ _) as [mgr' disk']. reflexivity.
Qed.

(** *** The session manager under [ProcessMessage] *)







End Loop.






End AgentFacts.

(** * Further properties of the code *)

(** ** The session log and its manager *)

Module SessionMore.
Import GoStrings Session SessionManager MoreNotions SessionFacts.

Lemma last_lastn {A} (n : nat) (l : list A) :
  (0 < n)%nat -> last (lastn n l) = last l.
Proof.
  intros Hn. unfold lastn.
  destruct (decide (length l = 0)%nat) as [Hl|Hl].
  - destruct l; [reflexivity|discriminate].
  - rewrite !last_lookup, lookup_drop, length_drop. f_equal. lia.
Qed.

Lemma AddMessage_last (role content : string) (now : Z) (s : Session) :
  last (Messages (Session.AddMessage role content now s))
  = Some (mkMessage role content now).
Proof.
  rewrite AddMessage_Messages. change maxMessages with 50%nat.
  rewrite last_lastn by lia. apply last_snoc.
Qed.

(** One append on any session, also one that holds more than 50 turns (a
    file edited by hand): the result holds at most 50 turns, namely the end
    of the old turns followed by the new one, which is the last. *)
Theorem AddMessage_restores_window (role content : string) (now : Z) (s : Session) :
  let s' := Session.AddMessage role content now s in
  length (Messages s') = Nat.min (S (length (Messages s))) 50
  /\ last (Messages s') = Some (mkMessage role content now)
  /\ Messages s' `suffix_of` (Messages s ++ [mkMessage role content now])
  /\ Key s' = Key s.
Proof.
  cbv zeta. rewrite AddMessage_Messages. change maxMessages with 50%nat.
  split; [|split; [|split]].
  - rewrite lastn_length, length_app. simpl. f_equal. lia.
  - rewrite <- (AddMessage_last role content now s), AddMessage_Messages. reflexivity.
  - unfold lastn. apply suffix_drop.
  - reflexivity.
Qed.





Lemma GetOrCreate_pointer key m files :
  sessions (snd (GetOrCreate key m files)) !! key = Some (fst (GetOrCreate key m files)).
Proof.
  unfold GetOrCreate. destruct (sessions m !! key) eqn:Hkey; [exact Hkey|].
  simpl. apply lookup_insert_eq.
Qed.

(** The cache of a manager never dangles: a new manager is well formed, and
    [GetOrCreate], [AddMessage] and [Save] keep it so.  [GetOrCreate]
    returns a pointer to a session, and once a key is cached the manager
    answers for it from the cache, whatever the disk holds by then. *)
Theorem manager_stays_wellFormed :
  (forall workspace, wellFormed (NewManager workspace))
  /\ (forall key m files,
        wellFormed m ->
        wellFormed (snd (GetOrCreate key m files))
        /\ is_Some (heap (snd (GetOrCreate key m files))
                      !! fst (GetOrCreate key m files)))
  /\ (forall p role content now m,
        wellFormed m -> wellFormed (AddMessage p role content now m))
  /\ (forall p m files, wellFormed m -> wellFormed (fst (Save p m files)))
  /\ (forall key m files files',
        GetOrCreate key (snd (GetOrCreate key m files)) files'
        = GetOrCreate key m files).
Proof.
  split; [|split; [|split; [|split]]].
  - intros workspace key p H. unfold NewManager in H. simpl in H.
    rewrite lookup_empty in H. discriminate.
  - intros key m files Hwf.
    assert (Hwf' : wellFormed (snd (GetOrCreate key m files))).
    { unfold GetOrCreate. destruct (sessions m !! key) eqn:Hkey; [exact Hwf|].
      simpl. intros k q Hk. simpl in *.
      destruct (decide (key = k)) as [->|Hne].
      - rewrite lookup_insert_eq in Hk. inversion Hk; subst.
        rewrite lookup_insert_eq. eauto.
      - rewrite lookup_insert_ne in Hk by exact Hne.
        destruct (Hwf _ _ Hk) as [s Hs].
        exists s. rewrite lookup_insert_ne; [exact Hs|].
        intros Heq. pose proof (is_fresh (dom (heap m))) as Hfresh.
        apply Hfresh. rewrite Heq. apply elem_of_dom. eauto. }
    split; [exact Hwf'|]. apply (Hwf' key). apply GetOrCreate_pointer.
  - intros p role content now m Hwf key q Hk. unfold AddMessage in *. simpl in *.
    destruct (Hwf _ _ Hk) as [s Hs].
    destruct (decide (p = q)) as [->|Hne].
    + rewrite lookup_alter_eq, Hs. simpl. eauto.
    + rewrite lookup_alter_ne by exact Hne. eauto.
  - intros p m files Hwf. unfold Save.
    destruct (heap m !! p) as [s|] eqn:Hp; [|exact Hwf].
    simpl. intros key q Hk. simpl in *.
    destruct (decide (Key s = key)) as [Heq|Hne].
    + rewrite Heq, lookup_insert_eq in Hk. inversion Hk; subst. eauto.
    + rewrite lookup_insert_ne in Hk by exact Hne. eauto.
  - intros key m files files'.
    pose proof (GetOrCreate_pointer key m files) as Hptr.
    unfold GetOrCreate at 1. rewrite Hptr. now destruct (GetOrCreate key m files).
Qed.

Lemma manager_stays_wellFormed_witness :
  wellFormed (snd (GetOrCreate "cli:1" (NewManager "/ws") ∅))
  /\ is_Some (heap (snd (GetOrCreate "cli:1" (NewManager "/ws") ∅))
                !! fst (GetOrCreate "cli:1" (NewManager "/ws") ∅)).
Proof.
  apply (proj1 (proj2 manager_stays_wellFormed) "cli:1" (NewManager "/ws") ∅).
  apply (proj1 manager_stays_wellFormed).
Defined.






End SessionMore.

(** ** Provider routing *)

Module ConfigMoreFacts.
Import GoStrings Config ConfigMore.

Lemma nonEmpty_key (p : ProviderConfig) :
  negb (isEmpty (APIKey p)) = true -> APIKey p <> EmptyString.
Proof. destruct (APIKey p); [discriminate|discriminate]. Qed.

(** [GetAPIKey] answers with the empty string exactly when none of the
    eight providers has a key: as soon as one key is configured, every model
    identifier resolves to some key. *)
Theorem GetAPIKey_empty_iff (c : Config) (model : string) :
  GetAPIKey c model = EmptyString
  <-> Forall (fun p => APIKey p = EmptyString) (fallbackTable c).
Proof.
  unfold GetAPIKey. cbv zeta. split.
  - intros Hres.
    destruct (List.find _ (keywordTable c)) as [row|] eqn:Hfirst.
    { apply List.find_some in Hfirst as [_ Hrow].
      apply andb_true_iff in Hrow as [_ Hkey].
      now apply nonEmpty_key in Hkey. }
    destruct (List.find _ (fallbackTable c)) as [p|] eqn:Hsecond.
    { apply List.find_some in Hsecond as [_ Hkey]. now apply nonEmpty_key in Hkey. }
    apply Forall_forall. intros p Hin.
    apply list_elem_of_In in Hin.
    pose proof (List.find_none _ _ Hsecond p Hin) as Hp. simpl in Hp.
    destruct (APIKey p); [reflexivity|discriminate].
  - intros Hall. unfold fallbackTable in *. cbv zeta in *.
    repeat match goal with
           | H : Forall _ (_ :: _) |- _ => apply Forall_cons in H as [? H]
           end.
    unfold keywordTable. cbv zeta. simpl.
    repeat match goal with
           | H : APIKey _ = EmptyString |- _ => rewrite H; clear H
           end.
    simpl. rewrite !andb_false_r. reflexivity.
Qed.

(** Key and base are resolved by two rules that do not list the keywords in
    the same order.  For a model that mentions [openrouter] they agree: the
    key and the base are those of OpenRouter.  For a model that mentions
    [deepseek] and [vllm] but not [openrouter], with both keys configured,
    the key is the one of DeepSeek while the base is the one of vLLM. *)
Theorem key_and_base_pairing (c : Config) (model : string) :
  let m := effectiveModel c model in
  (Contains m "openrouter" = true ->
   APIKey (OpenRouter (Providers c)) <> EmptyString ->
   GetAPIKey c model = APIKey (OpenRouter (Providers c))
   /\ GetAPIBase c model
      = if isEmpty (APIBase (OpenRouter (Providers c)))
        then "https://openrouter.ai/api/v1"
        else APIBase (OpenRouter (Providers c)))
  /\ (Contains m "openrouter" = false ->
      Contains m "deepseek" = true ->
      Contains m "vllm" = true ->
      APIKey (DeepSeek (Providers c)) <> EmptyString ->
      GetAPIKey c model = APIKey (DeepSeek (Providers c))
      /\ GetAPIBase c model = APIBase (VLLM (Providers c))).
Proof.
  cbv zeta. split.
  - intros Hor Hkey. apply StringFacts.isEmpty_false in Hkey.
    unfold GetAPIKey, GetAPIBase, keywordTable. cbv zeta. simpl.
    rewrite Hor, Hkey. simpl. split; [reflexivity|].
    now destruct (isEmpty (APIBase (OpenRouter (Providers c)))).
  - intros Hor Hds Hvllm Hkey. apply StringFacts.isEmpty_false in Hkey.
    unfold GetAPIKey, GetAPIBase, keywordTable. cbv zeta. simpl.
    rewrite Hor, Hds, Hvllm, Hkey. simpl. split; reflexivity.
Qed.

Lemma key_and_base_pairing_witness :
  let c :=
    mkConfig "gpt-4"
      (mkProvidersConfig
         (mkProviderConfig EmptyString EmptyString)
         (mkProviderConfig EmptyString EmptyString)
         (mkProviderConfig EmptyString EmptyString)
         (mkProviderConfig "ds-key" "https://api.deepseek.com/v1")
         (mkProviderConfig EmptyString EmptyString)
         (mkProviderConfig EmptyString EmptyString)
         (mkProviderConfig EmptyString EmptyString)
         (mkProviderConfig "vllm-key" "http://localhost:8000/v1")) in
  GetAPIKey c "vllm/deepseek-coder" = "ds-key"
  /\ GetAPIBase c "vllm/deepseek-coder" = "http://localhost:8000/v1".
Proof.
  cbv zeta.
  apply (proj2 (key_and_base_pairing
                  (mkConfig "gpt-4"
                     (mkProvidersConfig
                        (mkProviderConfig EmptyString EmptyString)
                        (mkProviderConfig EmptyString EmptyString)
                        (mkProviderConfig EmptyString EmptyString)
                        (mkProviderConfig "ds-key" "https://api.deepseek.com/v1")
                        (mkProviderConfig EmptyString EmptyString)
                        (mkProviderConfig EmptyString EmptyString)
                        (mkProviderConfig EmptyString EmptyString)
                        (mkProviderConfig "vllm-key" "http://localhost:8000/v1")))
                  "vllm/deepseek-coder"));
    (reflexivity || discriminate).
Defined.

End ConfigMoreFacts.

(** ** The registry and the validation of arguments *)

Module RegistryMore.
Import GoStrings GoValue Runtime Tools ToolsMore MoreNotions StringFacts.

(** Registering and looking up: a tool with a name is stored under its name,
    replaces the tool registered under that name before, leaves the other
    names alone, and makes the registry grow by one exactly when the name is
    new.  A [nil] tool and a tool without a name are refused and change
    nothing. *)
Theorem Register_then_Get {St : Type} (r : gmap string (Tool St)) (tool : Tool St) :
  (Name tool <> EmptyString ->
   fst (Register (Some tool) r) = None
   /\ Get (snd (Register (Some tool) r)) (Name tool) = Some tool
   /\ (forall name, name <> Name tool ->
                    Get (snd (Register (Some tool) r)) name = Get r name)
   /\ Registry_Count (snd (Register (Some tool) r))
      = match Get r (Name tool) with
        | Some _ => Registry_Count r
        | None => S (Registry_Count r)
        end)
  /\ (Name tool = EmptyString ->
      Register (Some tool) r = (Some "tool name cannot be empty", r))
  /\ Register None r = (Some "tool cannot be nil", r).
Proof.
  split; [|split].
  - intros Hname. apply isEmpty_false in Hname.
    unfold Register, Get, Registry_Count. rewrite Hname. simpl.
    split; [reflexivity|]. split; [apply lookup_insert_eq|].
    split; [intros name Hne; now apply lookup_insert_ne|].
    rewrite map_size_insert. now destruct (r !! Name tool).
  - intros Hname. unfold Register. now rewrite Hname.
  - reflexivity.
Qed.

Lemma Register_then_Get_witness :
  Get (snd (Register (Some (NewReadFileTool (RT := Sample.sampleRuntime))) ∅)) "read_file"
  = Some (NewReadFileTool (RT := Sample.sampleRuntime)).
Proof.
  apply (proj1 (Register_then_Get ∅ (NewReadFileTool (RT := Sample.sampleRuntime)))).
  discriminate.
Defined.

(** After the default tools are registered, a name resolves to the last tool
    of the list that bears it; the empty name resolves to nothing. *)
Theorem registerDefaultTools_last {W : Type}
    (defaults : list (Tool (@ProgState W))) (name : string) :
  Get (Agent.registerDefaultTools defaults) name
  = if isEmpty name then None
    else last (List.filter (fun tool => String.eqb (Name tool) name) defaults).
Proof.
  unfold Agent.registerDefaultTools, Get.
  induction defaults as [|tool defaults IH] using rev_ind.
  - simpl. rewrite lookup_empty. now destruct (isEmpty name).
  - rewrite foldl_app, List.filter_app. cbn [foldl List.filter].
    set (r := foldl _ ∅ defaults) in *. clearbody r.
    unfold Register.
    destruct (isEmpty (Name tool)) eqn:Hempty.
    + simpl. rewrite IH. apply isEmpty_true in Hempty. rewrite Hempty.
      destruct name as [|a name']; [reflexivity|]. simpl. now rewrite app_nil_r.
    + simpl. destruct (String.eqb_spec (Name tool) name) as [<-|Hne].
      * rewrite lookup_insert_eq, Hempty. symmetry. apply last_snoc.
      * rewrite lookup_insert_ne by exact Hne. rewrite IH. now rewrite app_nil_r.
Qed.

(** [List] names each registered tool once, names exactly the tools [Get]
    finds, and has as many names as [Count] counts. *)
Theorem Registry_List_names {St : Type} (r : gmap string (Tool St)) :
  NoDup (Registry_List r)
  /\ (forall name, name ∈ Registry_List r <-> is_Some (Get r name))
  /\ length (Registry_List r) = Registry_Count r.
Proof.
  unfold Registry_List, Registry_Count, Get. split; [apply NoDup_fst_map_to_list|].
  split.
  - intros name. rewrite list_elem_of_fmap. split.
    + intros ([k tool] & -> & Hin). apply elem_of_map_to_list in Hin.
      simpl. now exists tool.
    + intros [tool Htool]. exists (name, tool). split; [reflexivity|].
      now apply elem_of_map_to_list.
  - now rewrite length_fmap, length_map_to_list.
Qed.

End RegistryMore.

Module ValidationMore.
Import GoStrings GoValue Runtime Tools MoreNotions StringFacts.

Lemma mapGet_None (m : object) (key : string) :
  mapGet m key = None <-> key ∉ m.*1.
Proof.
  induction m as [|[k v] m IH]; simpl.
  - split; [intros _ H; now apply elem_of_nil in H|reflexivity].
  - destruct (String.eqb_spec k key) as [->|Hne].
    + split; [discriminate|]. intros H. exfalso. apply H. apply elem_of_cons. now left.
    + rewrite IH. split.
      * intros H Hin. apply elem_of_cons in Hin as [Heq|Hin]; [congruence|auto].
      * intros H Hin. apply H. apply elem_of_cons. now right.
Qed.

Lemma checkRequired_None (required : list string) (params : object) :
  checkRequired required params = None
  <-> forall name, name ∈ required -> name ∈ params.*1.
Proof.
  induction required as [|name required IH]; simpl.
  - split; [intros _ name H; now apply elem_of_nil in H|reflexivity].
  - destruct (mapGet params name) eqn:Hget.
    + assert (Hin : name ∈ params.*1).
      { destruct (decide (name ∈ params.*1)) as [H|H]; [exact H|].
        apply mapGet_None in H. congruence. }
      rewrite IH. split.
      * intros H n Hn. apply elem_of_cons in Hn as [->|Hn]; auto.
      * intros H n Hn. apply H. apply elem_of_cons. now right.
    + split; [discriminate|]. intros H. exfalso.
      apply mapGet_None in Hget. apply Hget, H. apply elem_of_cons. now left.
Qed.

Section WithRuntime.
Context {W : Type} `{RT : Runtime W}.

Lemma each_entry_None (properties params : object) :
  (fix each (entries : object) : option error :=
     match entries with
     | [] => None
     | (key, v) :: rest =>
         match mapGet properties key with
         | Some (VObject propMap) =>
             match validateValue v propMap key with
             | Some err => Some err
             | None => each rest
             end
         | _ => each rest
         end
     end) params = None
  <-> Forall (entryAccepted properties) params.
Proof.
  induction params as [|[key v] params IH].
  - split; [constructor|reflexivity].
  - rewrite Forall_cons. unfold entryAccepted at 1. simpl fst. simpl snd.
    destruct (mapGet properties key) as [[| | | | | | |propMap]|];
      try (rewrite <- IH; tauto).
    destruct (validateValue v propMap key) eqn:Hv.
    + split; [discriminate|]. intros [H _]. discriminate.
    + rewrite <- IH. tauto.
Qed.

Lemma ValidateParams_None (schema : option object) (params : object) :
  ValidateParams schema params = None
  <-> schema = None
      \/ exists sch,
           schema = Some sch
           /\ getString sch "type" = "object"
           /\ (forall name, name ∈ requiredNames sch -> name ∈ params.*1)
           /\ Forall (entryAccepted (propertiesOf sch)) params.
Proof.
  unfold ValidateParams, ValidateParamsWith.
  destruct schema as [sch|]; [|split; [now left|reflexivity]].
  cbv zeta.
  assert (Hmissing :
    match mapGet sch "required" with
    | Some (VStrings required) => checkRequired required params
    | Some (VArray required) => checkRequired (stringsOf required) params
    | _ => None
    end = checkRequired (requiredNames sch) params).
  { unfold requiredNames. now destruct (mapGet sch "required") as [[]|]. }
  rewrite Hmissing. clear Hmissing.
  destruct (String.eqb_spec (getString sch "type") "object") as [Htype|Htype]; simpl.
  - destruct (checkRequired (requiredNames sch) params) eqn:Hreq.
    + split; [discriminate|]. intros [H|(sch' & Heq & _ & Hnames & _)]; [discriminate|].
      inversion Heq; subst sch'.
      apply (proj2 (checkRequired_None _ _)) in Hnames. congruence.
    + pose proof (proj1 (checkRequired_None _ _) Hreq) as Hreq'.
      fold (propertiesOf sch). rewrite each_entry_None. split.
      * intros Hall. right. exists sch. auto.
      * intros [H|(sch' & Heq & _ & _ & Hall)]; [discriminate|].
        now inversion Heq; subst sch'.
  - split; [discriminate|]. intros [H|(sch' & Heq & Ht & _)]; [discriminate|].
    inversion Heq; subst sch'. contradiction.
Qed.

(** [ValidateParams] accepts exactly when there is no schema, or the schema
    is of type [object], every required name is among the arguments, and
    every argument whose name has a property schema validates against it;
    arguments under other names are not looked at. *)
Theorem ValidateParams_accepts_iff (schema : option object) (params : object) :
  ValidateParams schema params = None
  <-> schema = None
      \/ exists sch,
           schema = Some sch
           /\ getString sch "type" = "object"
           /\ (forall name, name ∈ requiredNames sch -> name ∈ params.*1)
           /\ Forall (entryAccepted (propertiesOf sch)) params.
Proof. apply ValidateParams_None. Qed.

(** Whether a set of arguments is accepted does not depend on the order in
    which the map is ranged over (the error reported for a rejected set
    may). *)
Theorem ValidateParams_order_irrelevant
    (schema : option object) (params params' : object) :
  params ≡ₚ params' ->
  (ValidateParams schema params = None <-> ValidateParams schema params' = None).
Proof.
  intros Hperm. rewrite !ValidateParams_None.
  assert (Hnames : forall name, name ∈ params.*1 <-> name ∈ params'.*1).
  { intros name. now rewrite Hperm. }
  assert (Hall : forall props, Forall (entryAccepted props) params
                               <-> Forall (entryAccepted props) params').
  { intros props. now rewrite Hperm. }
  split; (intros [H|(sch & Heq & Ht & Hreq & Hent)]; [now left|right; exists sch]);
    repeat split; try assumption.
  - intros name Hn. apply Hnames, Hreq, Hn.
  - now apply Hall.
  - intros name Hn. apply Hnames, Hreq, Hn.
  - now apply Hall.
Qed.


End WithRuntime.

Lemma ValidateParams_order_irrelevant_witness :
  ValidateParams (RT := Sample.sampleRuntime) (Some Sample.testSchema)
    [("age", VInt 30); ("name", VString "John")] = None.
Proof.
  apply (ValidateParams_order_irrelevant (RT := Sample.sampleRuntime)
           (Some Sample.testSchema)
           [("name", VString "John"); ("age", VInt 30)]
           [("age", VInt 30); ("name", VString "John")]).
  - apply perm_swap.
  - vm_compute. reflexivity.
Defined.

End ValidationMore.

(** ** The shell tool *)

Module ShellMore.
Import GoStrings GoValue Runtime Filepath Tools ToolsMore MoreNotions StringFacts.

Lemma flush_tokens st :
  Forall (fun token => token <> EmptyString) (tokens st) ->
  Forall (fun token => token <> EmptyString) (tokens (flush st)).
Proof.
  intros H. unfold flush. destruct (buf st) as [|a rest] eqn:Hbuf; simpl; [exact H|].
  apply Forall_app. split; [exact H|]. constructor; [discriminate|constructor].
Qed.

Lemma splitStep_tokens st r :
  Forall (fun token => token <> EmptyString) (tokens st) ->
  Forall (fun token => token <> EmptyString) (tokens (splitStep st r)).
Proof.
  intros H. unfold splitStep.
  repeat match goal with
         | |- context [if ?b then _ else _] => destruct b
         end; simpl; try exact H.
  now apply flush_tokens.
Qed.

Lemma foldl_splitStep_tokens runes st :
  Forall (fun token => token <> EmptyString) (tokens st) ->
  Forall (fun token => token <> EmptyString) (tokens (foldl splitStep st runes)).
Proof.
  revert st. induction runes as [|r runes IH]; intros st H; simpl; [exact H|].
  apply IH. now apply splitStep_tokens.
Qed.

(** The scanner of the restricted mode never yields an empty token,
    whatever the quotes, the escapes and the white space of the command. *)
Theorem splitShellWords_tokens_nonempty (input : string) :
  Forall (fun token => token <> EmptyString) (splitShellWords input).
Proof.
  unfold splitShellWords. apply flush_tokens, foldl_splitStep_tokens.
  simpl. constructor.
Qed.

Section WithRuntime.
Context {W : Type} `{RT : Runtime W}.

(** When [Execute] of the shell tool returns an error, the command was not
    run: the world is the one before the call and no text comes back.  (A
    command that ran and failed, or ran out of time, is reported in the
    text, without an error.) *)
Theorem ExecTool_error_runs_nothing (t : ExecTool) (params : object) (w w' : W)
    (text : string) (err : error) :
  ExecTool_Execute t params w = ((text, Some err), w') ->
  w' = w /\ text = EmptyString.
Proof.
  unfold ExecTool_Execute. cbv zeta. intros H.
  destruct (isEmpty (getString params "command")); [now inversion H|].
  destruct (isDangerousCommand (getString params "command")); [now inversion H|].
  match type of H with
  | context [match ?r with Some _ => _ | None => _ end] => destruct r
  end; [now inversion H|].
  match type of H with
  | context [sh_CombinedOutput ?c ?d ?n ?x] =>
      destruct (sh_CombinedOutput c d n x) as [[[output e] deadline] w1]
  end.
  destruct e; [destruct deadline|]; discriminate H.
Qed.

Lemma scan_first_match (lowerCmd : string) (patterns : list string) (pattern : string) :
  pattern ∈ patterns ->
  regexp_MatchString pattern lowerCmd = inl true ->
  exists found,
    found ∈ patterns
    /\ (fix scan (patterns : list string) : option error :=
          match patterns with
          | [] => None
          | pattern :: rest =>
              match regexp_MatchString pattern lowerCmd with
              | inr _ => scan rest
              | inl true =>
                  Some ("dangerous command detected: pattern '" +:+ pattern
                        +:+ "' matched")
              | inl false => scan rest
              end
          end) patterns
       = Some ("dangerous command detected: pattern '" +:+ found +:+ "' matched").
Proof.
  intros Hin Hmatch. induction patterns as [|p rest IH]; [now apply elem_of_nil in Hin|].
  destruct (regexp_MatchString p lowerCmd) as [[|]|e] eqn:Hp.
  - exists p. split; [left|]. simpl. rewrite ?Hp. reflexivity.
  - apply elem_of_cons in Hin as [->|Hin]; [congruence|].
    destruct (IH Hin) as (found & Hfound & Heq).
    exists found. split; [now right|]. simpl. rewrite ?Hp. exact Heq.
  - apply elem_of_cons in Hin as [->|Hin]; [congruence|].
    destruct (IH Hin) as (found & Hfound & Heq).
    exists found. split; [now right|]. simpl. rewrite ?Hp. exact Heq.
Qed.

(** A command whose lower-case form matches one of the dangerous patterns is
    never run, restricted or not: [Execute] returns the error that names a
    pattern of the list, and the world is left as it was. *)
Theorem dangerous_command_never_runs (t : ExecTool) (params : object) (w : W)
    (pattern : string) :
  getString params "command" <> EmptyString ->
  pattern ∈ dangerousPatterns ->
  regexp_MatchString pattern (ToLower (getString params "command")) = inl true ->
  exists found,
    found ∈ dangerousPatterns
    /\ ExecTool_Execute t params w
       = ((EmptyString,
           Some ("dangerous command detected: pattern '" +:+ found +:+ "' matched")), w).
Proof.
  intros Hcommand Hin Hmatch.
  destruct (scan_first_match _ _ _ Hin Hmatch) as (found & Hfound & Heq).
  exists found. split; [exact Hfound|].
  assert (isDangerousCommand (getString params "command")
          = Some ("dangerous command detected: pattern '" +:+ found +:+ "' matched"))
    as Hdanger by exact Heq.
  unfold ExecTool_Execute. cbv zeta.
  apply isEmpty_false in Hcommand. rewrite Hcommand, Hdanger. reflexivity.
Qed.

Lemma each_rejects (w : W) (workspace : string) (toks : list string) (token : string) :
  token ∈ toks ->
  validateToken w workspace token <> None ->
  (fix each (toks : list string) : option error :=
     match toks with
     | [] => None
     | token :: rest =>
         match validateToken w workspace token with
         | Some err => Some err
         | None => each rest
         end
     end) toks <> None.
Proof.
  intros Hin Htoken. induction toks as [|tok rest IH]; [now apply elem_of_nil in Hin|].
  simpl. destruct (validateToken w workspace tok) eqn:Htok; [discriminate|].
  apply elem_of_cons in Hin as [->|Hin]; [congruence|]. now apply IH.
Qed.

Lemma separator_has_no_expansion token :
  isShellSeparator token = true ->
  Contains token "$(" = false /\ Contains token "`" = false
  /\ HasPrefix token "~" = false.
Proof.
  unfold isShellSeparator. rewrite !orb_true_iff, !String.eqb_eq.
  intros [[[[->| ->]| ->]| ->]| ->]; repeat split; reflexivity.
Qed.

Lemma trimRedirect_home token :
  HasPrefix token "~" = true -> trimRedirect token = token.
Proof.
  destruct token as [|a rest]; [discriminate|]. cbn [HasPrefix]. intros H.
  destruct (Ascii.eqb "~" a) eqn:Hhead; [|discriminate H].
  apply Ascii.eqb_eq in Hhead. subst a. reflexivity.
Qed.

Lemma validateToken_rejects (w : W) (workspace token : string) :
  Contains token "$(" = true \/ Contains token "`" = true
  \/ (HasPrefix token "~" = true /\ Contains token "=" = false) ->
  validateToken w workspace token <> None.
Proof.
  intros Hbad. unfold validateToken.
  destruct (isEmpty token) eqn:Hempty.
  { apply isEmpty_true in Hempty. subst token.
    destruct Hbad as [H|[H|[H _]]]; discriminate H. }
  destruct (isShellSeparator token) eqn:Hsep.
  { destruct (separator_has_no_expansion _ Hsep) as (H1 & H2 & H3).
    destruct Hbad as [H|[H|[H _]]]; congruence. }
  destruct (Contains token "$(" || Contains token "`") eqn:Hexp; [discriminate|].
  apply orb_false_iff in Hexp as [H1 H2].
  destruct Hbad as [H|[H|[Hhome Heq]]]; [congruence|congruence|].
  cbv zeta. rewrite (trimRedirect_home _ Hhome), Hempty, Heq. simpl.
  unfold looksLikePath. rewrite Hempty, Hhome.
  unfold ensurePathWithinWorkspace. rewrite Hhome. simpl. discriminate.
Qed.

(** In restricted mode a command is refused, and not run, as soon as one of
    its tokens holds a command substitution ([$(] or a backquote) or starts
    with [~] without holding an [=], wherever the token stands and whatever
    the working directory is. *)
Theorem restricted_exec_rejects_expansion (t : ExecTool) (params : object) (w : W)
    (token : string) :
  RestrictToWorkspace t = true ->
  token ∈ splitShellWords (getString params "command") ->
  Contains token "$(" = true \/ Contains token "`" = true
  \/ (HasPrefix token "~" = true /\ Contains token "=" = false) ->
  exists err, ExecTool_Execute t params w = ((EmptyString, Some err), w).
Proof.
  intros Hrestrict Hin Hbad.
  unfold ExecTool_Execute. cbv zeta.
  destruct (isEmpty (getString params "command")); [eauto|].
  destruct (isDangerousCommand (getString params "command")); [eauto|].
  rewrite Hrestrict. simpl.
  destruct (isEmpty (WorkingDir t)); simpl; [eauto|].
  unfold validateCommandInWorkspace.
  destruct (isEmpty (cleanAbsPath w (WorkingDir t))); [eauto|].
  pose proof (each_rejects w (cleanAbsPath w (WorkingDir t)) _ _ Hin
                (validateToken_rejects w _ _ Hbad)) as Heach.
  match goal with
  | |- context [match ?r with Some _ => _ | None => _ end] =>
      destruct r as [err|] eqn:Hr
  end; [eauto|].
  now exfalso.
Qed.

End WithRuntime.

Lemma ExecTool_error_runs_nothing_witness :
  Sample.sampleWorld = Sample.sampleWorld /\ EmptyString = EmptyString.
Proof.
  apply (ExecTool_error_runs_nothing (RT := Sample.sampleRuntime)
           (NewExecTool "/ws" 0 false) [] Sample.sampleWorld Sample.sampleWorld
           EmptyString "command is required").
  reflexivity.
Defined.

Lemma dangerous_command_never_runs_witness :
  exists found,
    found ∈ dangerousPatterns
    /\ ExecTool_Execute (RT := MoreSamples.matchingRuntime) (NewExecTool "/ws" 0 false)
         [("command", VString "MKFS.ext4 /dev/sdb1")] Sample.sampleWorld
       = ((EmptyString,
           Some ("dangerous command detected: pattern '" +:+ found +:+ "' matched")),
          Sample.sampleWorld).
Proof.
  apply (dangerous_command_never_runs (RT := MoreSamples.matchingRuntime)
           (NewExecTool "/ws" 0 false)
           [("command", VString "MKFS.ext4 /dev/sdb1")] Sample.sampleWorld "mkfs\.").
  - discriminate.
  - apply (list_elem_of_lookup_2 _ 2). reflexivity.
  - reflexivity.
Defined.

Lemma restricted_exec_rejects_expansion_witness :
  exists err,
    ExecTool_Execute (RT := Sample.sampleRuntime) (NewExecTool "/ws" 0 true)
      [("command", VString "echo $(whoami)")] Sample.sampleWorld
    = ((EmptyString, Some err), Sample.sampleWorld).
Proof.
  apply (restricted_exec_rejects_expansion (RT := Sample.sampleRuntime)
           (NewExecTool "/ws" 0 true)
           [("command", VString "echo $(whoami)")] Sample.sampleWorld "$(whoami)").
  - reflexivity.
  - apply (list_elem_of_lookup_2 _ 1). reflexivity.
  - left. reflexivity.
Defined.

End ShellMore.

(** ** The file tools and the helpers of the web tools *)

Module FilesMore.
Import GoStrings GoValue Runtime Filepath Tools ToolsMore MoreNotions StringFacts.

Lemma length_substring_exact (n : nat) (s : string) :
  (n <= String.length s)%nat -> String.length (String.substring 0 n s) = n.
Proof.
  revert s. induction n as [|n IH]; intros [|a s] H; simpl in *; try reflexivity; try lia.
  rewrite IH; lia.
Qed.

Lemma substring_all (s : string) : String.substring 0 (String.length s) s = s.
Proof. induction s as [|a s IH]; simpl; [reflexivity|]. now rewrite IH. Qed.

Lemma HasPrefix_nil (s : string) : HasPrefix s EmptyString = true.
Proof. destruct s; reflexivity. Qed.

Lemma HasPrefix_append (p x : string) : HasPrefix (p +:+ x) p = true.
Proof.
  induction p as [|a p IH]; [apply HasPrefix_nil|].
  change (HasPrefix (String a (p +:+ x)) (String a p) = true).
  cbn [HasPrefix]. rewrite Ascii.eqb_refl. exact IH.
Qed.

Lemma HasPrefix_split (s p : string) :
  HasPrefix s p = true ->
  s = p +:+ String.substring (String.length p) (String.length s - String.length p) s.
Proof.
  revert s. induction p as [|a p IH]; intros s H.
  - change (s = String.substring 0 (String.length s - 0) s).
    now rewrite Nat.sub_0_r, substring_all.
  - destruct s as [|b s]; [discriminate H|].
    cbn [HasPrefix] in H. destruct (Ascii.eqb a b) eqn:Hab; [|discriminate H].
    apply Ascii.eqb_eq in Hab. subst b.
    change (String a s
            = String a (p +:+ String.substring (String.length p)
                                (String.length s - String.length p) s)).
    f_equal. now apply IH.
Qed.

Lemma ReplaceFirst_eq (s old new : string) :
  ReplaceFirst s old new
  = if HasPrefix s old then
      new +:+ String.substring (String.length old)
                (String.length s - String.length old) s
    else
      match s with
      | EmptyString => EmptyString
      | String a rest => String a (ReplaceFirst rest old new)
      end.
Proof. destruct s; reflexivity. Qed.

Lemma firstOccurrence_head (s old : string) :
  HasPrefix s old = true ->
  firstOccurrence s old EmptyString
    (String.substring (String.length old) (String.length s - String.length old) s).
Proof.
  intros Hp. split.
  - exact (HasPrefix_split _ _ Hp).
  - intros pre' post' _. simpl. lia.
Qed.

(** [strings.Replace(s, old, new, 1)] on a text that contains [old]: the
    text is cut around the leftmost occurrence of [old], and [new] stands
    in its place. *)
Lemma ReplaceFirst_spec (s old new : string) :
  Contains s old = true ->
  exists pre post,
    firstOccurrence s old pre post
    /\ ReplaceFirst s old new = pre +:+ new +:+ post.
Proof.
  induction s as [|a s IH]; intros H.
  - assert (HasPrefix EmptyString old = true) as Hp.
    { cbn [Contains] in H. now rewrite orb_false_r in H. }
    eexists EmptyString, _. split; [exact (firstOccurrence_head _ _ Hp)|].
    now rewrite ReplaceFirst_eq, Hp.
  - destruct (HasPrefix (String a s) old) eqn:Hp.
    + eexists EmptyString, _. split; [exact (firstOccurrence_head _ _ Hp)|].
      now rewrite ReplaceFirst_eq, Hp.
    + cbn [Contains] in H. rewrite Hp in H. simpl in H.
      destruct (IH H) as (pre & post & [Heq Hleft] & Hrep).
      exists (String a pre), post. split; [split|].
      * change (String a s = String a (pre +:+ old +:+ post)). now f_equal.
      * intros pre' post' Heq'. destruct pre' as [|b pre'].
        -- change (String a s = old +:+ post') in Heq'.
           rewrite Heq', HasPrefix_append in Hp. discriminate Hp.
        -- change (String a s = String b (pre' +:+ old +:+ post')) in Heq'.
           injection Heq' as _ Hs. specialize (Hleft _ _ Hs). simpl. lia.
      * rewrite ReplaceFirst_eq, Hp.
        change (String a (ReplaceFirst s old new) = String a (pre +:+ new +:+ post)).
        now rewrite Hrep.
Qed.

(** [truncateText] with a positive limit: a text within the limit is
    returned as it is; a longer one is cut to the limit and followed by the
    marker of 25 bytes, so the result has the limit plus 25 bytes, never
    more. *)
Theorem truncateText_bound (text : string) (maxLength : Z) :
  0 < maxLength ->
  (len text <= maxLength -> truncateText text maxLength = text)
  /\ (maxLength < len text ->
      truncateText text maxLength = sliceTo text maxLength +:+ contentMarker
      /\ len (truncateText text maxLength) = maxLength + 25)
  /\ len (truncateText text maxLength) <= maxLength + 25.
Proof.
  intros Hpos. unfold truncateText.
  destruct (maxLength <=? 0) eqn:Hle; [apply Z.leb_le in Hle; lia|].
  assert (maxLength < len text ->
          len (sliceTo text maxLength +:+ contentMarker) = maxLength + 25) as Hcut.
  { intros Hlong. rewrite len_append. unfold sliceTo, len at 1.
    rewrite length_substring_exact by (unfold len in Hlong; lia).
    change (len contentMarker) with 25. lia. }
  destruct (len text <=? maxLength) eqn:Hshort.
  - apply Z.leb_le in Hshort. split; [reflexivity|]. split; lia.
  - apply Z.leb_gt in Hshort. split; [lia|]. split; [now split; [|apply Hcut]|].
    rewrite Hcut by exact Hshort. lia.
Qed.

Lemma truncateText_bound_witness :
  len (truncateText "abcdef" 2) <= 2 + 25.
Proof.
  apply (truncateText_bound "abcdef" 2). lia.
Defined.

Lemma default_kept (x d : string) :
  isEmpty (TrimSpace d) = false ->
  isEmpty (TrimSpace (if isEmpty (TrimSpace x) then d else x)) = false.
Proof. intros Hd. destruct (isEmpty (TrimSpace x)) eqn:Hx; assumption. Qed.

(** [normalizeWebFetchOptions] fills what is missing and nothing else: its
    result has a positive timeout and a mode, a user agent and a wait
    condition that are not blank, and normalizing a second time changes
    nothing. *)
Theorem normalizeWebFetchOptions_idempotent (options : WebFetchOptions) :
  normalizeWebFetchOptions (normalizeWebFetchOptions options)
  = normalizeWebFetchOptions options
  /\ 0 < TimeoutSec (normalizeWebFetchOptions options)
  /\ TrimSpace (Mode (normalizeWebFetchOptions options)) <> EmptyString
  /\ TrimSpace (UserAgent (normalizeWebFetchOptions options)) <> EmptyString
  /\ TrimSpace (WaitUntil (normalizeWebFetchOptions options)) <> EmptyString.
Proof.
  pose proof (default_kept (Mode options) "http" eq_refl) as Hmode.
  pose proof (default_kept (UserAgent options) defaultWebFetchUserAgent eq_refl) as Hagent.
  pose proof (default_kept (WaitUntil options) defaultWebFetchWaitUntil eq_refl) as Hwait.
  assert (0 < (if TimeoutSec options <=? 0 then 30 else TimeoutSec options)) as Htime.
  { destruct (TimeoutSec options <=? 0) eqn:H; [lia|]. now apply Z.leb_gt in H. }
  split.
  - unfold normalizeWebFetchOptions at 1.
    cbn [Mode NodePath ScriptPath TimeoutSec UserAgent WaitUntil normalizeWebFetchOptions].
    rewrite Hmode, Hagent, Hwait.
    assert (((if TimeoutSec options <=? 0 then 30 else TimeoutSec options) <=? 0) = false)
      as -> by (apply Z.leb_gt; exact Htime).
    reflexivity.
  - cbn [Mode TimeoutSec UserAgent WaitUntil normalizeWebFetchOptions].
    split; [exact Htime|].
    split; [now apply isEmpty_false|].
    split; now apply isEmpty_false.
Qed.

Section WithRuntime.
Context {W : Type} `{RT : Runtime W} `{FS : FileSystem W}.

(** [edit_file] on a file it can read: when the file does not contain the
    old text, the tool fails and writes nothing; when it does, the text
    written is the file with the leftmost occurrence of the old text, and
    only that one, replaced by the new text. *)
Theorem EditFileTool_replaces_first_occurrence
    (allowedDir : string) (params : object) (w : W) (resolved content : string) :
  getString params "path" <> EmptyString ->
  resolvePath allowedDir (getString params "path") = (resolved, None) ->
  os_ReadFile w resolved = inl content ->
  (Contains content (getString params "old_string") = false ->
   EditFileTool_Execute allowedDir params w
   = ((EmptyString, Some "old_string not found in file"), w))
  /\ (Contains content (getString params "old_string") = true ->
      exists pre post,
        firstOccurrence content (getString params "old_string") pre post
        /\ EditFileTool_Execute allowedDir params w
           = match os_WriteFile resolved
                     (pre +:+ getString params "new_string" +:+ post) w with
             | (Some err, w1) =>
                 ((EmptyString, Some ("failed to write file: " +:+ err)), w1)
             | (None, w1) =>
                 (("File edited successfully: " +:+ resolved, None), w1)
             end).
Proof.
  intros Hpath Hres Hread. apply isEmpty_false in Hpath.
  unfold EditFileTool_Execute. cbv zeta. rewrite Hpath, Hres, Hread.
  split; intros Hold; rewrite Hold; [reflexivity|].
  destruct (ReplaceFirst_spec content (getString params "old_string")
              (getString params "new_string") Hold) as (pre & post & Hfirst & Hrep).
  exists pre, post. split; [exact Hfirst|]. simpl. now rewrite Hrep.
Qed.

(** The three file tools share the check of the path: a call without a path
    fails with the same message, and a path that [resolvePath] refuses makes
    each of them fail with the error of [resolvePath]; the two writing tools
    leave the world as it was. *)
Theorem file_tools_share_the_path_check
    (allowedDir : string) (params : object) (w : W) :
  (getString params "path" = EmptyString ->
   ReadFileTool_Execute allowedDir params w = (EmptyString, Some "path is required")
   /\ WriteFileTool_Execute allowedDir params w
      = ((EmptyString, Some "path is required"), w)
   /\ EditFileTool_Execute allowedDir params w
      = ((EmptyString, Some "path is required"), w))
  /\ (forall err,
        getString params "path" <> EmptyString ->
        snd (resolvePath allowedDir (getString params "path")) = Some err ->
        ReadFileTool_Execute allowedDir params w = (EmptyString, Some err)
        /\ WriteFileTool_Execute allowedDir params w = ((EmptyString, Some err), w)
        /\ EditFileTool_Execute allowedDir params w = ((EmptyString, Some err), w)).
Proof.
  unfold ReadFileTool_Execute, WriteFileTool_Execute, EditFileTool_Execute. cbv zeta.
  split.
  - intros Hpath. rewrite Hpath. simpl. repeat split.
  - intros err Hpath Hres. apply isEmpty_false in Hpath. rewrite Hpath.
    destruct (resolvePath allowedDir (getString params "path")) as [text e].
    simpl in Hres. subst e. repeat split.
Qed.

End WithRuntime.

Lemma EditFileTool_replaces_first_occurrence_witness :
  exists pre post,
    firstOccurrence "top secret" "t" pre post
    /\ EditFileTool_Execute (RT := Sample.sampleRuntime)
         (FS := MoreSamples.sampleFileSystem) "/ws-evil"
         [("path", VString "/ws-evil/secret.txt"); ("old_string", VString "t");
          ("new_string", VString "T")] Sample.sampleWorld
       = match ToolsMore.os_WriteFile (FileSystem := MoreSamples.sampleFileSystem)
                 "/ws-evil/secret.txt" (pre +:+ "T" +:+ post) Sample.sampleWorld with
         | (Some err, w1) =>
             ((EmptyString, Some ("failed to write file: " +:+ err)), w1)
         | (None, w1) =>
             (("File edited successfully: " +:+ "/ws-evil/secret.txt", None), w1)
         end.
Proof.
  apply (proj2 (EditFileTool_replaces_first_occurrence
                  (RT := Sample.sampleRuntime) (FS := MoreSamples.sampleFileSystem)
                  "/ws-evil"
                  [("path", VString "/ws-evil/secret.txt"); ("old_string", VString "t");
                   ("new_string", VString "T")] Sample.sampleWorld
                  "/ws-evil/secret.txt" "top secret" ltac:(discriminate)
                  eq_refl eq_refl)).
  reflexivity.
Defined.

End FilesMore.

(** ** The client of the model *)

Module ProvidersMoreFacts.
Import GoStrings GoValue Providers ProvidersMore Notions MoreNotions StringFacts.

(** The request that is sent carries the model, the tools and the streaming
    flag as given, asks for an automatic choice of tool exactly when there
    are tools, and holds one message per message, in order, with the role,
    the content and the tool calls kept as they are; the id of a tool call
    is passed on for a message of the role [tool] only. *)
Theorem buildChatRequest_keeps_messages
    (messages : list Message) (tools : list object) (model : string) (stream : bool) :
  rModel (buildChatRequest messages tools model stream) = model
  /\ rStream (buildChatRequest messages tools model stream) = stream
  /\ rTools (buildChatRequest messages tools model stream) = tools
  /\ rToolChoice (buildChatRequest messages tools model stream)
     = (if decide (tools = []) then None else Some "auto")
  /\ length (rMessages (buildChatRequest messages tools model stream)) = length messages
  /\ (forall i msg,
        messages !! i = Some msg ->
        exists cm,
          rMessages (buildChatRequest messages tools model stream) !! i = Some cm
          /\ cRole cm = Role msg
          /\ cContent cm = Content msg
          /\ cToolCallID cm
             = (if String.eqb (Role msg) "tool" then ToolCallID msg else EmptyString)
          /\ (fun c => mkToolCall (cID c) (cType c) (cFunction c)) <$> cToolCalls cm
             = ToolCalls msg).
Proof.
  assert (rMessages (buildChatRequest messages tools model stream)
          = convertToChatMessages messages) as Hmessages
    by (destruct tools; reflexivity).
  rewrite Hmessages.
  repeat split; try (destruct tools; reflexivity).
  - unfold convertToChatMessages. apply length_fmap.
  - intros i msg Hi. exists (convertMessage msg). split.
    + unfold convertToChatMessages. now rewrite list_lookup_fmap, Hi.
    + unfold convertMessage. cbn [cRole cContent cToolCallID cToolCalls].
      repeat split.
      * destruct (Content msg) as [|a rest] eqn:Hcontent; simpl; [|reflexivity].
        now destruct (negb (String.eqb (Role msg) "assistant")).
      * destruct (ToolCalls msg) as [|tc tcs]; [reflexivity|].
        rewrite <- list_fmap_compose. rewrite <- (list_fmap_id (tc :: tcs)) at 2.
        apply list_fmap_ext. intros _ [id ty [name args]] _. reflexivity.
Qed.

Section Stream.
Variable decodeChunk : string -> chatStreamChunk + error.

Lemma applyDelta_streamingCall st tc :
  Forall streamingCall (snd st) -> Forall streamingCall (snd (applyDelta st tc)).
Proof.
  destruct st as [builders calls]. unfold applyDelta. simpl. intros Hcalls.
  set (b0 := match builders !! dIndex tc with
             | Some builder => builder
             | None => mkBuilder EmptyString EmptyString EmptyString false
             end).
  set (b1 := if negb (isEmpty (dID tc))
             then mkBuilder (dID tc) (bName b0) (bArguments b0) (bStarted b0)
             else b0).
  set (b2 := if negb (isEmpty (Name (dFunction tc)))
             then mkBuilder (bID b1) (Name (dFunction tc)) (bArguments b1) (bStarted b1)
             else b1).
  destruct (negb (bStarted b2)) eqn:Hstarted; simpl;
    destruct (isEmpty (bID b2)) eqn:Hid; simpl;
    destruct (isEmpty (bName b2)) eqn:Hname; simpl;
    destruct (isEmpty (Arguments (dFunction tc))) eqn:Hargs; simpl;
    rewrite ?Hid; simpl;
    repeat (apply Forall_app; split); try exact Hcalls;
    repeat (apply Forall_cons; split); try apply Forall_nil_2;
    simpl; try split; now apply isEmpty_false.
Qed.

Lemma applyChoice_streamingCall st choice :
  Forall streamingCall (snd st) -> Forall streamingCall (snd (applyChoice st choice)).
Proof.
  intros Hst. unfold applyChoice.
  set (st0 := if negb (isEmpty (DeltaContent choice))
              then (fst st, snd st ++ [OnContent (DeltaContent choice)]) else st).
  assert (H0 : Forall streamingCall (snd st0)).
  { unfold st0. destruct (isEmpty (DeltaContent choice)) eqn:Hcontent; [exact Hst|].
    simpl. apply Forall_app. split; [exact Hst|].
    apply Forall_cons. split; [|apply Forall_nil_2]. simpl. now apply isEmpty_false. }
  clearbody st0. revert st0 H0.
  induction (DeltaToolCalls choice) as [|tc tcs IH]; intros st0 H0; [exact H0|].
  simpl. apply IH. now apply applyDelta_streamingCall.
Qed.

(** The loop over the lines: unless it leaves on a chunk that does not
    decode, all its calls are well formed; when it does, the last call
    reports the error and the calls before it are well formed. *)
Lemma scanLines_streamingCall input : forall st,
  Forall streamingCall (snd st) ->
  match fst (scanLines decodeChunk input st) with
  | ExitDecodeError err =>
      exists pre,
        snd (snd (scanLines decodeChunk input st))
        = pre ++ [OnError ("stream decode error: " +:+ err)]
        /\ Forall streamingCall pre
  | _ => Forall streamingCall (snd (snd (scanLines decodeChunk input st)))
  end.
Proof.
  induction input as [|raw rest IH]; intros st Hst; [exact Hst|].
  simpl. destruct (classifyLine decodeChunk raw) as [| |err|choice].
  - now apply IH.
  - exact Hst.
  - simpl. now exists (snd st).
  - apply IH. now apply applyChoice_streamingCall.
Qed.

(** The calls of one streamed request, in order: first the calls made while
    the lines are read, each with a text, an id, a name or a fragment that is
    not empty; then, when the request succeeds, the ends of the tool calls
    and one [OnComplete], the last call; when it fails, one [OnError], the
    last call, and neither an end nor an [OnComplete]. *)
Theorem stream_calls_shape (request : sseStream + error)
    (calls : list HandlerCall) (err : option error) :
  OpenAIProvider_ChatStream decodeChunk request = (calls, err) ->
  exists pre,
    Forall streamingCall pre
    /\ match err with
       | None =>
           exists closing,
             calls = pre ++ closing ++ [OnComplete]
             /\ Forall (fun call => exists id,
                          call = OnToolCallEnd id /\ id <> EmptyString) closing
       | Some e =>
           calls = pre ++ [OnError e]
           \/ calls = pre ++ [OnError ("stream decode error: " +:+ e)]
           \/ calls = pre ++ [OnError ("stream error: " +:+ e)]
       end.
Proof.
  unfold OpenAIProvider_ChatStream. destruct request as [stream|e].
  2:{ intros H. inversion H; subst. exists []. split; [constructor|]. now left. }
  pose proof (scanLines_streamingCall (lines stream) (∅, []) (List.Forall_nil _)) as Hscan.
  destruct (scanLines decodeChunk (lines stream) (∅, [])) as [exit [builders pre]].
  simpl in Hscan.
  assert (Forall (fun call => exists id, call = OnToolCallEnd id /\ id <> EmptyString)
            (endCalls builders)) as Hends.
  { apply Forall_forall. intros call Hin. unfold endCalls in Hin.
    apply list_elem_of_omap in Hin as ([idx builder] & _ & Hsome). simpl in Hsome.
    destruct (isEmpty (bArguments builder)); [discriminate|].
    destruct (isEmpty (bID builder)) eqn:Hid; [discriminate|].
    simpl in Hsome. inversion Hsome; subst.
    exists (bID builder). split; [reflexivity|]. now apply isEmpty_false. }
  intros Hrun. destruct exit as [| |e].
  - inversion Hrun; subst. exists pre. split; [exact Hscan|]. now exists (endCalls builders).
  - destruct (scanErr stream) as [e|]; inversion Hrun; subst.
    + exists pre. split; [exact Hscan|]. right. now right.
    + exists pre. split; [exact Hscan|]. now exists (endCalls builders).
  - inversion Hrun; subst. destruct Hscan as (pre' & -> & Hpre').
    exists pre'. split; [exact Hpre'|]. right. now left.
Qed.



End Stream.

Lemma stream_calls_shape_witness :
  exists pre,
    Forall streamingCall pre
    /\ exists closing,
         [ OnToolCallStart "A" "f";
           OnToolCallDelta "A" Sample.fragment1;
           OnToolCallDelta "A" Sample.fragment2;
           OnToolCallEnd "A";
           OnComplete ] = pre ++ closing ++ [OnComplete]
         /\ Forall (fun call => exists id,
                      call = OnToolCallEnd id /\ id <> EmptyString) closing.
Proof.
  apply (stream_calls_shape Sample.sampleDecode
           (inl (mkStream ["data: c1"; "data: c2"; "data: c3"; "data: [DONE]"] None))
           _ None).
  reflexivity.
Defined.


End ProvidersMoreFacts.

(** ** The agent loop *)

Module AgentMoreFacts.
Import GoStrings GoValue Runtime Agent Notions MoreNotions StringFacts.

Lemma append_nil_r (s : string) : s +:+ EmptyString = s.
Proof.
  induction s as [|a s IH]; [reflexivity|].
  change (String a (s +:+ EmptyString) = String a s). now rewrite IH.
Qed.

Lemma append_assoc' (a b c : string) : (a +:+ b) +:+ c = a +:+ (b +:+ c).
Proof.
  induction a as [|x a IH]; [reflexivity|].
  change (String x ((a +:+ b) +:+ c) = String x (a +:+ b +:+ c)).
  now rewrite IH.
Qed.

(** The fragments of a tool call that has started are appended to its
    arguments, in order. *)
Lemma handle_fragments (id : string) (fragments : list string) :
  forall (h : streamHandler) (tc : Providers.ToolCall),
    accumulatingCalls h !! id = Some tc ->
    foldl handle h (Providers.OnToolCallDelta id <$> fragments)
    = mkHandler (content h) (toolCalls h)
        (<[id := Providers.mkToolCall (Providers.ID tc) (Providers.Type_ tc)
                   (Providers.mkToolCallFunction
                      (Providers.Name (Providers.Function tc))
                      (Providers.Arguments (Providers.Function tc)
                       +:+ concatAll fragments))]>
           (accumulatingCalls h)).
Proof.
  induction fragments as [|fragment fragments IH]; intros h tc Htc.
  - simpl. rewrite append_nil_r. destruct h as [c t acc], tc as [i ty [name args]].
    simpl in *. now rewrite insert_id.
  - cbn [fmap list_fmap foldl]. cbn [handle]. rewrite Htc.
    erewrite IH by (cbn [accumulatingCalls]; apply lookup_insert_eq).
    cbn [content toolCalls accumulatingCalls Providers.ID Providers.Type_
         Providers.Function Providers.Name Providers.Arguments].
    rewrite insert_insert_eq, append_assoc'. reflexivity.
Qed.

(** The handler of the loop, fed with the start of a tool call, its
    fragments and its end, adds one finished call to its list: the call of
    that id and name whose arguments are the fragments put together; the
    text and the calls collected before are kept.  Fragments and an end for
    an id that has not started change nothing. *)
Theorem handler_assembles_tool_call
    (h : streamHandler) (id name : string) (fragments : list string) :
  foldl handle h
    ([Providers.OnToolCallStart id name]
     ++ (Providers.OnToolCallDelta id <$> fragments)
     ++ [Providers.OnToolCallEnd id])
  = mkHandler (content h)
      (toolCalls h
       ++ [Providers.mkToolCall id "function"
             (Providers.mkToolCallFunction name (concatAll fragments))])
      (delete id (accumulatingCalls h))
  /\ (accumulatingCalls h !! id = None ->
      foldl handle h
        ((Providers.OnToolCallDelta id <$> fragments) ++ [Providers.OnToolCallEnd id])
      = h).
Proof.
  split.
  - rewrite !foldl_app.
    set (h1 := foldl handle h [Providers.OnToolCallStart id name]).
    assert (accumulatingCalls h1 !! id
            = Some (Providers.mkToolCall id "function"
                      (Providers.mkToolCallFunction name EmptyString))) as Hstarted
      by apply lookup_insert_eq.
    rewrite (handle_fragments id fragments h1 _ Hstarted).
    cbn [foldl handle accumulatingCalls content toolCalls Providers.ID Providers.Type_
         Providers.Function Providers.Name Providers.Arguments].
    rewrite lookup_insert_eq. unfold h1.
    cbn [foldl handle accumulatingCalls content toolCalls].
    rewrite insert_insert_eq, delete_insert_eq. reflexivity.
  - intros Hnone. rewrite foldl_app.
    assert (foldl handle h (Providers.OnToolCallDelta id <$> fragments) = h) as ->.
    { induction fragments as [|fragment fragments IH]; [reflexivity|].
      cbn [fmap list_fmap foldl handle]. now rewrite Hnone. }
    cbn [foldl handle]. now rewrite Hnone.
Qed.

Lemma handler_assembles_tool_call_witness :
  foldl handle newStreamHandler
    ((Providers.OnToolCallDelta "A" <$> [Sample.fragment1; Sample.fragment2])
     ++ [Providers.OnToolCallEnd "A"])
  = newStreamHandler.
Proof.
  apply (proj2 (handler_assembles_tool_call newStreamHandler "A" "f"
                  [Sample.fragment1; Sample.fragment2])).
  reflexivity.
Defined.

Section Loop.
Context {W : Type} `{RT : Runtime W}.
Variable buildSystemPrompt : string -> string -> string -> string -> W -> string.

Lemma runToolCall_answer (a : AgentLoop) (messages : list Providers.Message)
    (st : AgentState) (tc : Providers.ToolCall) :
  exists text args,
    fst (runToolCall a (messages, st) tc)
    = messages ++ [Providers.mkMessage "tool" text (Providers.ID tc) []]
    /\ trace (snd (runToolCall a (messages, st) tc))
       = trace st
         ++ [EToolExecute (Providers.Name (Providers.Function tc)) args].
Proof.
  unfold runToolCall.
  destruct (Tools.Registry_Execute _ _ _ _) as [[result err] prog'].
  simpl. unfold AddToolResult. eauto.
Qed.

(** The loop over the tool calls of one answer: every call is dispatched to
    the registry once, in order, under its function name, and every call
    gets one message of the role [tool] that bears its id, in order, after
    the messages that were there; no call is left without an answer, also
    when the tool is unknown or fails. *)
Theorem every_tool_call_is_answered (a : AgentLoop) (tcs : list Providers.ToolCall) :
  forall (messages : list Providers.Message) (st : AgentState),
  exists results dispatches,
    fst (foldl (runToolCall a) (messages, st) tcs) = messages ++ results
    /\ trace (snd (foldl (runToolCall a) (messages, st) tcs)) = trace st ++ dispatches
    /\ length results = length tcs
    /\ length dispatches = length tcs
    /\ (forall i tc,
          tcs !! i = Some tc ->
          (exists text,
             results !! i = Some (Providers.mkMessage "tool" text (Providers.ID tc) []))
          /\ (exists args,
                dispatches !! i
                = Some (EToolExecute (Providers.Name (Providers.Function tc)) args))).
Proof.
  induction tcs as [|tc tcs IH]; intros messages st.
  - exists [], []. simpl. rewrite !app_nil_r. do 4 (split; [reflexivity|]).
    intros i tc H. discriminate H.
  - cbn [foldl].
    destruct (runToolCall_answer a messages st tc) as (text & args & Hm & Ht).
    destruct (runToolCall a (messages, st) tc) as [messages1 st1]. simpl in Hm, Ht.
    destruct (IH messages1 st1) as (results & dispatches & Hr & Hd & Hlr & Hld & Hall).
    exists (Providers.mkMessage "tool" text (Providers.ID tc) [] :: results),
           (EToolExecute (Providers.Name (Providers.Function tc)) args :: dispatches).
    rewrite Hr, Hd, Hm, Ht, <- !app_assoc. simpl.
    split; [reflexivity|]. split; [reflexivity|].
    split; [now rewrite Hlr|]. split; [now rewrite Hld|].
    intros [|i] tc' Hi; simpl in Hi.
    + inversion Hi; subst tc'. split; eauto.
    + apply Hall, Hi.
Qed.

Lemma iterate_requests (a : AgentLoop) (toolDefs : list object) (n : nat) :
  forall (messages : list Providers.Message) (st : AgentState),
    (countChatStream (trace st) + Nat.min 1 n
     <= countChatStream (trace (snd (iterate a toolDefs n messages st))))%nat
    /\ (countChatStream (trace (snd (iterate a toolDefs n messages st)))
        <= countChatStream (trace st) + n)%nat.
Proof.
  induction n as [|n IH]; intros messages st; [simpl; lia|].
  rewrite AgentFacts.iterate_step. cbv zeta.
  destruct (Providers.ChatStream (Provider a) messages toolDefs (Model a)
              (Tools.world (prog st))) as [[calls err] w'].
  cbn [fst snd]. destruct err as [err|].
  - cbn [fst snd trace]. rewrite AgentFacts.countChatStream_app.
    change (countChatStream [EChatStream (Some err)]) with 1%nat. lia.
  - destruct (toolCalls (foldl handle newStreamHandler calls)) as [|tc tcs].
    + cbn [fst snd trace]. rewrite AgentFacts.countChatStream_app.
      change (countChatStream [EChatStream None]) with 1%nat. lia.
    + match goal with
      | |- context [foldl (runToolCall a) ?acc0 ?l] =>
          destruct (AgentFacts.runToolCalls_frame a l acc0)
            as (_ & _ & tbody & Ht & _ & Hcount);
          destruct (IH (fst (foldl (runToolCall a) acc0 l))
                       (snd (foldl (runToolCall a) acc0 l))) as [Hlow Hhigh]
      end.
      cbn [fst snd trace] in Ht. rewrite Ht in Hlow, Hhigh.
      rewrite !AgentFacts.countChatStream_app, Hcount in Hlow, Hhigh.
      change (countChatStream [EChatStream None]) with 1%nat in Hlow, Hhigh.
      lia.
Qed.

(** One call of [ProcessMessage] sends at most [MaxIterations] streaming
    requests to the model, and at least one when [MaxIterations] is
    positive, whatever the model answers and however many tools it calls. *)
Theorem requests_bounded_by_cap
    (a : AgentLoop) (msg : Bus.InboundMessage) (st : AgentState) :
  (countChatStream (trace st) + Nat.min 1 (Z.to_nat (MaxIterations a))
   <= countChatStream (trace (snd (ProcessMessage buildSystemPrompt a msg st))))%nat
  /\ (countChatStream (trace (snd (ProcessMessage buildSystemPrompt a msg st)))
      <= countChatStream (trace st) + Z.to_nat (MaxIterations a))%nat.
Proof.
  rewrite AgentFacts.ProcessMessage_steps. cbv zeta.
  match goal with
  | |- context [iterate a ?defs ?n ?messages ?st0] =>
      pose proof (iterate_requests a defs n messages st0) as Hit;
      destruct (iterate a defs n messages st0) as [[fc|err] st1]
  end; cbn [fst snd trace] in *.
  - rewrite AgentFacts.countChatStream_app.
    match goal with
    | |- context [countChatStream [?x; ?y; ?z]] =>
        change (countChatStream [x; y; z]) with 0%nat
    end.
    lia.
  - exact Hit.
Qed.



End Loop.


End AgentMoreFacts.

(** ** The message bus *)

Module BusFacts.
Import MessageBus MoreNotions.

Lemma foldl_PublishInbound (msgs : list (option Bus.InboundMessage)) :
  forall (errs : list (option error)) (b : MessageBus),
    closed b = false ->
    (length (inbound b) + length msgs <= capacity b)%nat ->
    foldl (fun acc msg =>
             (fst acc ++ [fst (PublishInbound msg (snd acc))],
              snd (PublishInbound msg (snd acc))))
          (errs, b) msgs
    = (errs ++ replicate (length msgs) None,
       mkBus (inbound b ++ msgs) (outbound b) (capacity b) false).
Proof.
  induction msgs as [|msg msgs IH]; intros errs b Hopen Hroom.
  - simpl. rewrite !app_nil_r. destruct b; simpl in *. now subst.
  - cbn [foldl fst snd]. simpl length in Hroom.
    assert (PublishInbound msg b
            = (None, mkBus (inbound b ++ [msg]) (outbound b) (capacity b) false)) as Hpub.
    { unfold PublishInbound. rewrite Hopen.
      destruct (Nat.ltb_spec (length (inbound b)) (capacity b)); [reflexivity|lia]. }
    rewrite Hpub. cbn [fst snd].
    rewrite IH; cbn [closed inbound outbound capacity]; [|reflexivity|].
    + now rewrite <- !app_assoc.
    + rewrite length_app. simpl. lia.
Qed.

Lemma consumeN_takes (msgs : list (option Bus.InboundMessage)) :
  forall (b : MessageBus) (rest : list (option Bus.InboundMessage)),
    inbound b = msgs ++ rest ->
    consumeN (length msgs) b
    = ((fun msg => (msg, true)) <$> msgs,
       mkBus rest (outbound b) (capacity b) (closed b)).
Proof.
  induction msgs as [|msg msgs IH]; intros b rest Hin.
  - simpl. destruct b; simpl in *. now subst.
  - cbn [length consumeN]. unfold TryConsumeInbound. rewrite Hin. cbn [app fst snd].
    rewrite (IH _ rest) by reflexivity. reflexivity.
Qed.

(** An open bus with room takes every message published, in order, behind
    the messages it holds, and hands all of them out in that order, each
    once, until it is empty; when the messages fill it, the next one is
    refused with [ErrBufferFull] and dropped. *)
Theorem bus_is_fifo (b : MessageBus) (msgs : list (option Bus.InboundMessage)) :
  closed b = false ->
  (length (inbound b) + length msgs <= capacity b)%nat ->
  fst (publishAll msgs b) = replicate (length msgs) None
  /\ consumeN (length (inbound b ++ msgs)) (snd (publishAll msgs b))
     = ((fun msg => (msg, true)) <$> (inbound b ++ msgs),
        mkBus [] (outbound b) (capacity b) false)
  /\ ((length (inbound b) + length msgs = capacity b)%nat ->
      forall msg,
        PublishInbound msg (snd (publishAll msgs b))
        = (Some ErrBufferFull, snd (publishAll msgs b))).
Proof.
  intros Hopen Hroom. unfold publishAll.
  rewrite (foldl_PublishInbound msgs [] b Hopen Hroom). cbn [fst snd].
  split; [reflexivity|]. split.
  - rewrite (consumeN_takes (inbound b ++ msgs) _ []); [reflexivity|].
    cbn [inbound]. now rewrite app_nil_r.
  - intros Hfull msg. unfold PublishInbound. cbn [closed inbound capacity].
    destruct (Nat.ltb_spec (length (inbound b ++ msgs)) (capacity b)) as [Hlt|_];
      [|reflexivity].
    rewrite length_app in Hlt. lia.
Qed.

Lemma bus_is_fifo_witness :
  consumeN 2
    (snd (publishAll
            [Some (Bus.NewInboundMessage "cli" "user" "1" "first");
             Some (Bus.NewInboundMessage "cli" "user" "1" "second")]
            (NewMessageBus 2)))
  = ([(Some (Bus.NewInboundMessage "cli" "user" "1" "first"), true);
      (Some (Bus.NewInboundMessage "cli" "user" "1" "second"), true)],
     NewMessageBus 2).
Proof.
  apply (bus_is_fifo (NewMessageBus 2)
           [Some (Bus.NewInboundMessage "cli" "user" "1" "first");
            Some (Bus.NewInboundMessage "cli" "user" "1" "second")]).
  - reflexivity.
  - simpl. lia.
Defined.

(** Closing the bus: a second [Close] does nothing more; every publish is
    refused with [ErrBusClosed] and changes nothing; the messages in the
    queues stay and can still be taken; and a non-blocking take on the closed
    and drained inbound queue reports success with a [nil] message, where
    the open empty queue reports that nothing is there. *)
Theorem closed_bus_behaviour (b : MessageBus) :
  Close (Close b) = Close b
  /\ IsClosed (Close b) = true
  /\ (forall msg, PublishInbound msg (Close b) = (Some ErrBusClosed, Close b))
  /\ (forall msg, PublishOutbound msg (Close b) = (Some ErrBusClosed, Close b))
  /\ inbound (Close b) = inbound b
  /\ outbound (Close b) = outbound b
  /\ (forall msg rest,
        inbound b = msg :: rest ->
        fst (TryConsumeInbound (Close b)) = (msg, true)
        /\ inbound (snd (TryConsumeInbound (Close b))) = rest)
  /\ (inbound b = [] -> TryConsumeInbound (Close b) = ((None, true), Close b))
  /\ (inbound b = [] -> closed b = false -> TryConsumeInbound b = ((None, false), b)).
Proof.
  destruct b as [inb outb cap [|]]; unfold Close, IsClosed, PublishInbound,
    PublishOutbound, TryConsumeInbound; simpl;
    repeat split; try (intros; subst; simpl; reflexivity); try discriminate.
Qed.

Lemma closed_bus_behaviour_witness :
  TryConsumeInbound (Close (NewMessageBus 2)) = ((None, true), Close (NewMessageBus 2)).
Proof.
  apply (closed_bus_behaviour (NewMessageBus 2)). reflexivity.
Defined.

End BusFacts.
